(** * framer: the [FramerState] container and the abstract [Framer]

    A shallow embedding of [framer/framer.py].  A [FramerState] instance
    is modelled by its instance dictionary ([__dict__]); the mapping the
    class exposes is the dictionary object bound to the private field
    [_data] inside it.  Every method is a computation in a small
    state-and-exception monad over the instance, so that a raised
    exception and the state it leaves behind are both visible.

    Python values are modelled by value: integers, strings, [None],
    dictionaries with string keys, and opaque objects (bound methods,
    the class object).  Object identity and aliasing between two
    references to one dictionary are outside the model.

    [readreq] of [setup.py] is embedded as a function of the lines of
    the file it reads. *)

From Stdlib Require Import Ascii.
From stdpp Require Import gmap strings list fin_maps.

Set Warnings "-register-all,-clear-no-such-hyp".

Open Scope string_scope.

(** ** Python values and exceptions *)

Inductive value : Type :=
  | VNone
  | VInt (z : Z)
  | VStr (s : string)
  | VOpaque (repr : string)
  | VDict (d : gmap string value).

Inductive exn : Type :=
  | IndexError
  | KeyError (key : string)
  | AttributeError (name : string)
  | TypeError
  | RecursionError
  | NoFrames.

Inductive result (A : Type) : Type :=
  | Ok (a : A)
  | Raise (e : exn).

Arguments Ok {A} a.
Arguments Raise {A} e.

(** The instance: its [__dict__]. *)
Record FramerState : Type := Obj { attrs : gmap string value }.

(** ** The state-and-exception monad of method bodies *)

Definition M (A : Type) : Type := FramerState → result A * FramerState.

#[export] Instance M_ret : MRet M := λ A a self, (Ok a, self).

#[export] Instance M_bind : MBind M := λ A B f m self,
  match m self with
  | (Ok a, self') => f a self'
  | (Raise e, self') => (Raise e, self')
  end.

Definition raise {A : Type} (e : exn) : M A := λ self, (Raise e, self).

Definition lift {A : Type} (r : result A) : M A := λ self, (r, self).

(** [try: body / except: handler]; the handler re-raises what it does
    not catch. *)
Definition try_except {A : Type} (body : M A) (handler : exn → M A) : M A :=
  λ self,
    match body self with
    | (Ok a, self') => (Ok a, self')
    | (Raise e, self') => handler e self'
    end.

(** ** Primitive operations of the Python data model *)

(** [name[0]] on a string. *)
Definition first_char (name : string) : result ascii :=
  match name with
  | EmptyString => Raise IndexError
  | String c _ => Ok c
  end.

(** [name[0] == '_'], the test every mutating method starts with. *)
Definition leading_underscore (name : string) : result bool :=
  match first_char name with
  | Ok c => Ok (bool_decide (c = "_"%char))
  | Raise e => Raise e
  end.

(** A name is reserved when it begins with ['_']. *)
Definition reserved (name : string) : bool :=
  match name with
  | String c _ => bool_decide (c = "_"%char)
  | EmptyString => false
  end.

(** [d[k]] *)
Definition py_getitem (d : value) (k : string) : result value :=
  match d with
  | VDict m => match m !! k with
               | Some v => Ok v
               | None => Raise (KeyError k)
               end
  | _ => Raise TypeError
  end.

(** [d[k] = v]; the result is the dictionary object after the store. *)
Definition py_setitem (d : value) (k : string) (v : value) : result value :=
  match d with
  | VDict m => Ok (VDict (<[k := v]> m))
  | _ => Raise TypeError
  end.

(** [del d[k]]; the result is the dictionary object after the removal. *)
Definition py_delitem (d : value) (k : string) : result value :=
  match d with
  | VDict m => match m !! k with
               | Some _ => Ok (VDict (delete k m))
               | None => Raise (KeyError k)
               end
  | _ => Raise TypeError
  end.

(** [len(d)] *)
Definition py_len (d : value) : result nat :=
  match d with
  | VDict m => Ok (size m)
  | VStr s => Ok (String.length s)
  | _ => Raise TypeError
  end.

(** [six.iterkeys(d)], the names the iterator produces.  They come in
    the order of the model's map, not in Python's insertion order: only
    which names are produced is meaningful. *)
Definition iterkeys (d : value) : result (list string) :=
  match d with
  | VDict m => Ok (map_to_list m).*1
  | _ => Raise (AttributeError "keys")
  end.

(** The interpreter's recursion limit. *)
Definition recursion_limit : nat := 1000.

(** ** The abstract [Framer]

    [to_frame] and [to_bytes] are abstract: the base class gives them no
    behaviour, a concrete framer supplies it.  [to_frame] may shrink the
    buffer it is given, and raises [NoFrames] when the buffer holds no
    complete frame. *)

Class Framer (frame : Type) : Type := {
  to_frame : list Byte.byte → FramerState →
             result frame * list Byte.byte * FramerState;
  to_bytes : frame → FramerState → result (list Byte.byte) * FramerState
}.

(** The default [initialize_state]: its body is [pass]. *)
Definition initialize_state {frame : Type} `{!Framer frame} : M () :=
  mret ().

(** ** The public mapping methods [FramerState] inherits

    The mixin methods [collections.abc.MutableMapping] and [Mapping]
    give every subclass; each is found on the class by ordinary
    attribute lookup and reads as a bound method.  Only the names that
    do not begin with ['_'] are listed. *)
Definition MutableMapping_mixins : list string :=
  ["get"; "keys"; "items"; "values";
   "pop"; "popitem"; "clear"; "update"; "setdefault"].

Definition MutableMapping_attrs (name : string) : option value :=
  if bool_decide (name ∈ MutableMapping_mixins)
  then Some (VOpaque ("bound method " +:+ name))
  else None.

Abbreviation MM := MutableMapping_attrs.

(** ** [setup.py]: reading a requirements file

    [readreq] takes the file as the list of its lines, in order, as
    iterating over the open file yields them.  Which characters
    [str.strip] removes is the interpreter's business, so the predicate
    is a parameter. *)

Section Requirements.

Variable whitespace : ascii → bool.

(** [s.lstrip()] *)
Fixpoint lstrip (s : string) : string :=
  match s with
  | String c s' => if whitespace c then lstrip s' else s
  | EmptyString => EmptyString
  end.

(** [s.rstrip()] *)
Fixpoint rstrip (s : string) : string :=
  match s with
  | String c s' =>
      match rstrip s' with
      | EmptyString => if whitespace c then EmptyString else String c EmptyString
      | r => String c r
      end
  | EmptyString => EmptyString
  end.

(** [s.strip()] *)
Definition strip (s : string) : string := rstrip (lstrip s).

(** [s.find(sub)]: the lowest index at which [sub] occurs, [-1] when it
    does not occur. *)
Fixpoint find (sub s : string) : Z :=
  if String.prefix sub s then 0%Z
  else match s with
       | String _ s' =>
           let i := find sub s' in
           if (i <? 0)%Z then (-1)%Z else (i + 1)%Z
       | EmptyString => (-1)%Z
       end.

(** [s[n:]] for a non-negative [n]. *)
Fixpoint slice_from (n : nat) (s : string) : string :=
  match n, s with
  | S n', String _ s' => slice_from n' s'
  | _, _ => s
  end.

(** [s.partition('#')[0]]: what precedes the first ['#']. *)
Fixpoint partition_head (s : string) : string :=
  match s with
  | String c s' =>
      if bool_decide (c = "#"%char) then EmptyString
      else String c (partition_head s')
  | EmptyString => EmptyString
  end.

(** [req.startswith('-e ') or req.startswith('http:')] *)
Definition editable (req : string) : bool :=
  String.prefix "-e " req || String.prefix "http:" req.

(** The body of the loop up to the test for an empty requirement. *)
Definition requirement_of (line : string) : string :=
  let req := lstrip line in
  if editable req then
    let idx := find "#egg=" req in
    if (0 <=? idx)%Z
    then strip (partition_head (slice_from (Z.to_nat (idx + 5)) req))
    else req
  else strip (partition_head req).

Definition readreq (lines : list string) : list string :=
  foldl (λ (result : list string) line,
           let req := requirement_of line in
           if decide (req = "") then result else (result ++ [req])%list)
        [] lines.

End Requirements.

(** The ASCII characters [str.strip] removes from a text string: space,
    tab, line feed, vertical tab, form feed, carriage return and the
    four separators 28 to 31. *)
Definition ascii_whitespace (c : ascii) : bool :=
  bool_decide (c ∈ [" "; "009"; "010"; "011"; "012"; "013";
                    "028"; "029"; "030"; "031"]%char).

Section FramerState.

(** The attributes that ordinary lookup finds on the class and its
    bases ([MutableMapping], [Mapping], ..., [object]), with the value
    lookup yields for an instance: a bound method for a function.  The
    bases come from the Python standard library, so the table is a
    parameter. *)
Variable class_attr : string → option value.

(** Neither [FramerState] nor any of its bases defines [_data]. *)
Definition class_lookup (name : string) : option value :=
  if decide (name = "_data") then None else class_attr name.

(** ** [object]'s attribute protocol

    The three data descriptors of the type ([__dict__], [__class__],
    [__weakref__]) take precedence over the instance dictionary; class
    attributes come after it. *)

Definition object_getattribute (name : string) : M value := λ self,
  if decide (name = "__dict__") then (Ok (VDict (attrs self)), self)
  else if decide (name = "__class__") then (Ok (VOpaque "FramerState"), self)
  else if decide (name = "__weakref__") then (Ok VNone, self)
  else match attrs self !! name with
       | Some v => (Ok v, self)
       | None =>
           match class_lookup name with
           | Some v => (Ok v, self)
           | None => (Raise (AttributeError name), self)
           end
       end.

Definition object_setattr (name : string) (v : value) : M () := λ self,
  if decide (name = "__dict__") then
    match v with
    | VDict d => (Ok (), Obj d)
    | _ => (Raise TypeError, self)
    end
  else if decide (name = "__class__") then (Raise TypeError, self)
  else if decide (name = "__weakref__") then
    (Raise (AttributeError name), self)
  else (Ok (), Obj (<[name := v]> (attrs self))).

Definition object_delattr (name : string) : M () := λ self,
  if decide (name = "__dict__") then (Ok (), Obj ∅)
  else if decide (name = "__class__") then (Raise TypeError, self)
  else if decide (name = "__weakref__") then
    (Raise (AttributeError name), self)
  else match attrs self !! name with
       | Some _ => (Ok (), Obj (delete name (attrs self)))
       | None => (Raise (AttributeError name), self)
       end.

(** ** [FramerState] *)

(** [__getattr__], given the evaluation of [self._data]. *)
Definition __getattr__ (self_data : M value) (name : string) : M value :=
  try_except
    (d ← self_data; lift (py_getitem d name))
    (λ e, match e with
          | KeyError _ => raise (AttributeError name)
          | _ => raise e
          end).

(** Attribute access [self.name]: ordinary lookup, and [__getattr__]
    when it fails.  [__getattr__] itself reads [self._data], so the
    access is recursive; [fuel] is the stack depth left. *)
Fixpoint getattr (fuel : nat) (name : string) : M value :=
  try_except
    (object_getattribute name)
    (λ e, match e with
          | AttributeError _ =>
              match fuel with
              | O => raise RecursionError
              | S fuel' => __getattr__ (getattr fuel' "_data") name
              end
          | _ => raise e
          end).

(** [self._data] inside a method body. *)
Definition self_data : M value := getattr recursion_limit "_data".

(** The dictionary bound to [self._data] is mutated in place: the
    instance keeps referring to the updated object.  Values carry no
    object identity, so this is the store as long as that dictionary is
    referenced from nowhere else: a [_data] that is also the instance
    dictionary, or is shared with another field, is not represented. *)
Definition rebind_data (d : value) : M () := λ self,
  (Ok (), Obj (<["_data" := d]> (attrs self))).

Definition __getitem__ (name : string) : M value :=
  d ← self_data; lift (py_getitem d name).

Definition __setattr__ (name : string) (v : value) : M () :=
  b ← lift (leading_underscore name);
  if b : bool then object_setattr name v
  else d ← self_data; d' ← lift (py_setitem d name v); rebind_data d'.

Definition __setitem__ (name : string) (v : value) : M () :=
  b ← lift (leading_underscore name);
  if b : bool then raise (KeyError name)
  else d ← self_data; d' ← lift (py_setitem d name v); rebind_data d'.

Definition __delattr__ (name : string) : M () :=
  b ← lift (leading_underscore name);
  if b : bool then object_delattr name
  else
    try_except
      (d ← self_data; d' ← lift (py_delitem d name); rebind_data d')
      (λ e, match e with
            | KeyError _ => raise (AttributeError name)
            | _ => raise e
            end).

Definition __delitem__ (name : string) : M () :=
  b ← lift (leading_underscore name);
  if b : bool then raise (KeyError name)
  else d ← self_data; d' ← lift (py_delitem d name); rebind_data d'.

Definition __iter__ : M (list string) :=
  d ← self_data; lift (iterkeys d).

Definition __len__ : M nat :=
  d ← self_data; lift (py_len d).

(** [__init__] runs [self._data = {}] on the blank instance, which goes
    through [__setattr__]. *)
Definition __init__ : M () := __setattr__ "_data" (VDict ∅).

Definition new_FramerState : FramerState := (__init__ (Obj ∅)).2.

(** Attribute-style read [state.name] as a caller writes it. *)
Definition getattr_ (name : string) : M value := getattr recursion_limit name.

(** The mapping a state exposes, when [_data] holds a dictionary. *)
Definition mapping (st : FramerState) : option (gmap string value) :=
  match attrs st !! "_data" with
  | Some (VDict m) => Some m
  | _ => None
  end.

(** The state whose mapping has become [m], all else as it was. *)
Definition with_mapping (m : gmap string value) (st : FramerState) : FramerState :=
  Obj (<["_data" := VDict m]> (attrs st)).

(** ** Callers

    The operations a caller may issue on a state, and what each hands
    back. *)

Inductive op : Type :=
  | GetAttr (name : string)
  | GetItem (name : string)
  | SetAttr (name : string) (v : value)
  | SetItem (name : string) (v : value)
  | DelAttr (name : string)
  | DelItem (name : string)
  | Iter
  | Len.

Inductive retval : Type :=
  | RNone
  | RValue (v : value)
  | RNames (l : list string)
  | RSize (n : nat).

Definition perform (o : op) : M retval :=
  match o with
  | GetAttr n => v ← getattr_ n; mret (RValue v)
  | GetItem n => v ← __getitem__ n; mret (RValue v)
  | SetAttr n v => _ ← __setattr__ n v; mret RNone
  | SetItem n v => _ ← __setitem__ n v; mret RNone
  | DelAttr n => _ ← __delattr__ n; mret RNone
  | DelItem n => _ ← __delitem__ n; mret RNone
  | Iter => l ← __iter__; mret (RNames l)
  | Len => n ← __len__; mret (RSize n)
  end.

(** A caller that handles every exception and carries on: the state
    after a sequence of operations. *)
Definition run (ops : list op) (st : FramerState) : FramerState :=
  foldl (λ s o, (perform o s).2) st ops.

(** A straight-line script: the first exception aborts it. *)
Fixpoint exec (ops : list op) : M () :=
  match ops with
  | [] => mret ()
  | o :: ops' => _ ← perform o; exec ops'
  end.

(** Attribute-style writes and deletes that rebind the container's own
    storage: the bookkeeping field [_data] and the instance dictionary
    [__dict__]. *)
Definition rebinds_storage (o : op) : bool :=
  match o with
  | SetAttr n _ | DelAttr n =>
      bool_decide (n = "_data") || bool_decide (n = "__dict__")
  | _ => false
  end.

(** The names [object] treats specially, plus [_data]. *)
Definition special_names : list string :=
  ["_data"; "__dict__"; "__class__"; "__weakref__"].

(** A write or delete of [name] in the style chosen. *)
Definition set_op (attribute_style : bool) (name : string) (v : value) : op :=
  if attribute_style then SetAttr name v else SetItem name v.

Definition del_op (attribute_style : bool) (name : string) : op :=
  if attribute_style then DelAttr name else DelItem name.

(** ** The representation invariant

    The instance dictionary holds reserved names only, [_data] among
    them bound to a dictionary, and that dictionary holds no reserved
    name. *)

Definition private_only (st : FramerState) : Prop :=
  map_Forall (λ k _, reserved k = true) (attrs st).

Definition public_only (m : gmap string value) : Prop :=
  map_Forall (λ k _, reserved k = false) m.

Definition well_formed (st : FramerState) : Prop :=
  private_only st ∧ ∃ m, mapping st = Some m ∧ public_only m.

(** ** The mapping as a finite map

    What an operation does to a dictionary in the abstract: a write of a
    non-empty name that does not begin with ['_'] inserts, a delete of
    such a name removes, and nothing else changes the dictionary. *)
Definition abstract_step (m : gmap string value) (o : op) : gmap string value :=
  match o with
  | SetAttr n v | SetItem n v =>
      if decide (n = "") then m
      else if reserved n then m else <[n := v]> m
  | DelAttr n | DelItem n =>
      if decide (n = "") then m
      else if reserved n then m else delete n m
  | _ => m
  end.

(** Attribute-style writes and deletes of reserved names: the only
    operations [object]'s own protocol serves. *)
Definition private_write (o : op) : bool :=
  match o with
  | SetAttr n _ | DelAttr n => reserved n
  | _ => false
  end.

(** The attribute-style write of [__dict__]. *)
Definition sets_dict (o : op) : bool :=
  match o with
  | SetAttr n _ => bool_decide (n = "__dict__")
  | _ => false
  end.

(** The attribute-style writes that bind the container's storage to an
    object of the caller's: [_data] and [__dict__]. *)
Definition assigns_storage (o : op) : bool :=
  match o with
  | SetAttr n _ => bool_decide (n = "_data") || bool_decide (n = "__dict__")
  | _ => false
  end.

(** ** How the methods compute *)

Lemma leading_underscore_spec (name : string) :
  leading_underscore name
  = if decide (name = "") then Raise IndexError else Ok (reserved name).
Proof. by destruct name. Qed.

Lemma reserved_nonempty (name : string) : reserved name = true → name ≠ "".
Proof. by destruct name. Qed.

(** Ordinary lookup of a name that is not a data descriptor. *)
Lemma object_getattribute_plain (name : string) (st : FramerState) :
  name ≠ "__dict__" → name ≠ "__class__" → name ≠ "__weakref__" →
  object_getattribute name st
  = (match attrs st !! name with
     | Some v => Ok v
     | None => match class_lookup name with
               | Some v => Ok v
               | None => Raise (AttributeError name)
               end
     end, st).
Proof.
  intros H1 H2 H3. unfold object_getattribute.
  rewrite !decide_False by done.
  by destruct (attrs st !! name); [|destruct (class_lookup name)].
Qed.

(** [self._data] finds the bookkeeping field in the instance
    dictionary; when the field is gone, [__getattr__] calls itself
    until the stack is exhausted, whatever depth is left. *)
Lemma getattr_data (fuel : nat) (st : FramerState) :
  getattr fuel "_data" st
  = (match attrs st !! "_data" with
     | Some d => Ok d
     | None => Raise RecursionError
     end, st).
Proof.
  induction fuel as [|fuel IH]; cbn [getattr]; unfold try_except;
    rewrite object_getattribute_plain by done;
    destruct (attrs st !! "_data") as [d|] eqn:Hd; try done.
  change (class_lookup "_data") with (@None value). cbn match.
  unfold __getattr__, try_except, mbind, M_bind. by rewrite IH.
Qed.

Lemma self_data_spec (st : FramerState) :
  self_data st
  = (match attrs st !! "_data" with
     | Some d => Ok d
     | None => Raise RecursionError
     end, st).
Proof. apply getattr_data. Qed.

Lemma mapping_Some (st : FramerState) (m : gmap string value) :
  mapping st = Some m ↔ attrs st !! "_data" = Some (VDict m).
Proof.
  unfold mapping. destruct (attrs st !! "_data") as [[]|]; naive_solver.
Qed.

Lemma mapping_with_mapping (m : gmap string value) (st : FramerState) :
  mapping (with_mapping m st) = Some m.
Proof. unfold mapping, with_mapping. cbn [attrs]. by rewrite lookup_insert_eq. Qed.

Ltac run_method :=
  unfold __getitem__, __setattr__, __setitem__, __delattr__, __delitem__,
    __iter__, __len__, rebind_data, try_except, lift, raise, mbind, M_bind,
    mret, M_ret;
  rewrite ?leading_underscore_spec, ?self_data_spec.

Lemma getitem_spec (st : FramerState) (m : gmap string value) (n : string) :
  mapping st = Some m →
  __getitem__ n st
  = (match m !! n with Some v => Ok v | None => Raise (KeyError n) end, st).
Proof. intros H%mapping_Some. run_method. by rewrite H. Qed.

Lemma len_spec (st : FramerState) (m : gmap string value) :
  mapping st = Some m → __len__ st = (Ok (size m), st).
Proof. intros H%mapping_Some. run_method. by rewrite H. Qed.

Lemma iter_spec (st : FramerState) (m : gmap string value) :
  mapping st = Some m → __iter__ st = (Ok (map_to_list m).*1, st).
Proof. intros H%mapping_Some. run_method. by rewrite H. Qed.

Lemma setattr_plain (st : FramerState) (m : gmap string value) (n : string) (v : value) :
  mapping st = Some m → n ≠ "" → reserved n = false →
  __setattr__ n v st = (Ok (), with_mapping (<[n := v]> m) st).
Proof.
  intros H%mapping_Some Hn Hr. run_method.
  rewrite decide_False, Hr by done. run_method. by rewrite H.
Qed.

Lemma setitem_plain (st : FramerState) (m : gmap string value) (n : string) (v : value) :
  mapping st = Some m → n ≠ "" → reserved n = false →
  __setitem__ n v st = (Ok (), with_mapping (<[n := v]> m) st).
Proof.
  intros H%mapping_Some Hn Hr. run_method.
  rewrite decide_False, Hr by done. run_method. by rewrite H.
Qed.

Lemma delitem_plain (st : FramerState) (m : gmap string value) (n : string) :
  mapping st = Some m → n ≠ "" → reserved n = false →
  __delitem__ n st
  = match m !! n with
    | Some _ => (Ok (), with_mapping (delete n m) st)
    | None => (Raise (KeyError n), st)
    end.
Proof.
  intros H%mapping_Some Hn Hr. run_method.
  rewrite decide_False, Hr by done. run_method. rewrite H.
  cbn [py_delitem]. by destruct (m !! n).
Qed.

Lemma delattr_plain (st : FramerState) (m : gmap string value) (n : string) :
  mapping st = Some m → n ≠ "" → reserved n = false →
  __delattr__ n st
  = match m !! n with
    | Some _ => (Ok (), with_mapping (delete n m) st)
    | None => (Raise (AttributeError n), st)
    end.
Proof.
  intros H%mapping_Some Hn Hr. run_method.
  rewrite decide_False, Hr by done. run_method. rewrite H.
  cbn [py_delitem]. by destruct (m !! n).
Qed.

(** The subscript-style guard fires before the state is looked at. *)
Lemma setitem_reserved_raises (st : FramerState) (n : string) (v : value) :
  reserved n = true → __setitem__ n v st = (Raise (KeyError n), st).
Proof.
  intros Hr. run_method.
  by rewrite decide_False, Hr by by apply reserved_nonempty.
Qed.

Lemma delitem_reserved_raises (st : FramerState) (n : string) :
  reserved n = true → __delitem__ n st = (Raise (KeyError n), st).
Proof.
  intros Hr. run_method.
  by rewrite decide_False, Hr by by apply reserved_nonempty.
Qed.

(** A reserved name goes to [object]'s own protocol. *)
Lemma setattr_reserved (st : FramerState) (n : string) (v : value) :
  reserved n = true → __setattr__ n v st = object_setattr n v st.
Proof.
  intros Hr. run_method.
  by rewrite decide_False, Hr by by apply reserved_nonempty.
Qed.

Lemma delattr_reserved (st : FramerState) (n : string) :
  reserved n = true → __delattr__ n st = object_delattr n st.
Proof.
  intros Hr. run_method.
  by rewrite decide_False, Hr by by apply reserved_nonempty.
Qed.

(** Attribute-style read of a name that is no data descriptor of the
    type: the instance dictionary, then the class, then the mapping. *)
Lemma getattr_S (fuel : nat) (st : FramerState) (n : string) :
  n ≠ "__dict__" → n ≠ "__class__" → n ≠ "__weakref__" →
  getattr (S fuel) n st
  = (match attrs st !! n with
     | Some v => Ok v
     | None =>
         match class_lookup n with
         | Some c => Ok c
         | None =>
             match attrs st !! "_data" with
             | Some d =>
                 match py_getitem d n with
                 | Ok v => Ok v
                 | Raise (KeyError _) => Raise (AttributeError n)
                 | Raise e => Raise e
                 end
             | None => Raise RecursionError
             end
         end
     end, st).
Proof.
  intros H1 H2 H3. cbn [getattr]. unfold try_except.
  rewrite object_getattribute_plain by done.
  destruct (attrs st !! n) as [v|]; [done|].
  destruct (class_lookup n) as [c|]; [done|].
  unfold __getattr__, try_except, mbind, M_bind, lift, raise.
  rewrite getattr_data.
  destruct (attrs st !! "_data") as [d|]; [|done].
  by destruct (py_getitem d n) as [v|[]].
Qed.

Lemma getattr_spec (st : FramerState) (n : string) :
  n ≠ "__dict__" → n ≠ "__class__" → n ≠ "__weakref__" →
  getattr_ n st
  = (match attrs st !! n with
     | Some v => Ok v
     | None =>
         match class_lookup n with
         | Some c => Ok c
         | None =>
             match attrs st !! "_data" with
             | Some d =>
                 match py_getitem d n with
                 | Ok v => Ok v
                 | Raise (KeyError _) => Raise (AttributeError n)
                 | Raise e => Raise e
                 end
             | None => Raise RecursionError
             end
         end
     end, st).
Proof. apply getattr_S. Qed.

(** ** Reads leave the state alone *)

Lemma object_getattribute_state (n : string) (st : FramerState) :
  (object_getattribute n st).2 = st.
Proof.
  unfold object_getattribute. repeat case_decide; try done.
  by destruct (attrs st !! n); [|destruct (class_lookup n)].
Qed.

Lemma getattr_state (fuel : nat) (n : string) (st : FramerState) :
  (getattr fuel n st).2 = st.
Proof.
  destruct fuel as [|fuel]; cbn [getattr]; unfold try_except;
    pose proof (object_getattribute_state n st) as Hs;
    destruct (object_getattribute n st) as [[v|e] st']; cbn [snd] in Hs;
    subst st'; try done; destruct e; try done.
  unfold __getattr__, try_except, mbind, M_bind, lift, raise.
  rewrite getattr_data.
  destruct (attrs st !! "_data") as [d|]; [|done].
  by destruct (py_getitem d n) as [v|[]].
Qed.

Lemma getitem_state (n : string) (st : FramerState) : (__getitem__ n st).2 = st.
Proof. run_method. by destruct (attrs st !! "_data"). Qed.

Lemma len_state (st : FramerState) : (__len__ st).2 = st.
Proof. run_method. by destruct (attrs st !! "_data"). Qed.

Lemma iter_state (st : FramerState) : (__iter__ st).2 = st.
Proof. run_method. by destruct (attrs st !! "_data"). Qed.

(** The size and the names depend on the state through [_data] only. *)
Lemma len_result (st : FramerState) :
  (__len__ st).1
  = match attrs st !! "_data" with
    | Some d => py_len d
    | None => Raise RecursionError
    end.
Proof. run_method. by destruct (attrs st !! "_data"). Qed.

Lemma iter_result (st : FramerState) :
  (__iter__ st).1
  = match attrs st !! "_data" with
    | Some d => iterkeys d
    | None => Raise RecursionError
    end.
Proof. run_method. by destruct (attrs st !! "_data"). Qed.

(** ** The fresh state *)

Lemma new_FramerState_attrs :
  new_FramerState = Obj {[ "_data" := VDict ∅ ]}.
Proof. reflexivity. Qed.

Lemma new_FramerState_mapping : mapping new_FramerState = Some ∅.
Proof. reflexivity. Qed.

Lemma new_FramerState_well_formed : well_formed new_FramerState.
Proof.
  split.
  - rewrite new_FramerState_attrs. unfold private_only. cbn [attrs].
    by apply map_Forall_singleton.
  - exists ∅. split; [done|]. apply map_Forall_empty.
Qed.

(** ** Every operation keeps the invariant *)

Lemma well_formed_with_mapping (st : FramerState) (m : gmap string value) :
  private_only st → public_only m → well_formed (with_mapping m st).
Proof.
  intros Hp Hm. split.
  - unfold private_only, with_mapping. cbn [attrs].
    by apply map_Forall_insert_2.
  - exists m. by rewrite mapping_with_mapping.
Qed.

Lemma well_formed_set_private (st : FramerState) (n : string) (v : value) :
  reserved n = true → n ≠ "_data" →
  well_formed st → well_formed (Obj (<[n := v]> (attrs st))).
Proof.
  intros Hr Hn [Hp (m & Hm & Hpub)]. split.
  - unfold private_only. cbn [attrs]. by apply map_Forall_insert_2.
  - exists m. split; [|done]. unfold mapping in *. cbn [attrs].
    by rewrite lookup_insert_ne.
Qed.

Lemma well_formed_del_private (st : FramerState) (n : string) :
  n ≠ "_data" →
  well_formed st → well_formed (Obj (delete n (attrs st))).
Proof.
  intros Hn [Hp (m & Hm & Hpub)]. split.
  - unfold private_only. cbn [attrs]. by apply map_Forall_delete.
  - exists m. split; [|done]. unfold mapping in *. cbn [attrs].
    by rewrite lookup_delete_ne.
Qed.

Lemma perform_well_formed (o : op) (st : FramerState) :
  rebinds_storage o = false →
  well_formed st → well_formed (perform o st).2.
Proof.
  intros Ho Hwf.
  destruct o as [n|n|n v|n v|n|n| |]; cbn [perform rebinds_storage] in *;
    unfold mbind, M_bind.
  - pose proof (getattr_state recursion_limit n st) as Hs. unfold getattr_.
    by destruct (getattr _ n st) as [[]?]; cbn [snd] in *; subst.
  - pose proof (getitem_state n st) as Hs.
    by destruct (__getitem__ n st) as [[]?]; cbn [snd] in *; subst.
  - apply orb_false_iff in Ho as [Hd%bool_decide_eq_false Hdd%bool_decide_eq_false].
    destruct (decide (n = "")) as [->|Hne]; [done|].
    destruct (reserved n) eqn:Hr.
    + rewrite setattr_reserved by done. unfold object_setattr.
      rewrite (decide_False (P := n = "__dict__")) by done.
      repeat case_decide; try done.
      cbn [snd]. by apply well_formed_set_private.
    + destruct Hwf as [Hp (m & Hm & Hpub)].
      rewrite (setattr_plain _ m) by done. cbn [snd].
      apply well_formed_with_mapping; [done|].
      by apply map_Forall_insert_2.
  - destruct (decide (n = "")) as [->|Hne]; [done|].
    destruct (reserved n) eqn:Hr.
    + by rewrite setitem_reserved_raises.
    + destruct Hwf as [Hp (m & Hm & Hpub)].
      rewrite (setitem_plain _ m) by done. cbn [snd].
      apply well_formed_with_mapping; [done|].
      by apply map_Forall_insert_2.
  - apply orb_false_iff in Ho as [Hd%bool_decide_eq_false Hdd%bool_decide_eq_false].
    destruct (decide (n = "")) as [->|Hne]; [done|].
    destruct (reserved n) eqn:Hr.
    + rewrite delattr_reserved by done. unfold object_delattr.
      rewrite (decide_False (P := n = "__dict__")) by done.
      repeat case_decide; try done.
      destruct (attrs st !! n); [|done].
      cbn [snd]. by apply well_formed_del_private.
    + pose proof Hwf as [Hp (m & Hm & Hpub)].
      rewrite (delattr_plain _ m) by done.
      destruct (m !! n); [|done]. cbn [snd].
      apply well_formed_with_mapping; [done|].
      by apply map_Forall_delete.
  - destruct (decide (n = "")) as [->|Hne]; [done|].
    destruct (reserved n) eqn:Hr.
    + by rewrite delitem_reserved_raises.
    + pose proof Hwf as [Hp (m & Hm & Hpub)].
      rewrite (delitem_plain _ m) by done.
      destruct (m !! n); [|done]. cbn [snd].
      apply well_formed_with_mapping; [done|].
      by apply map_Forall_delete.
  - pose proof (iter_state st) as Hs.
    by destruct (__iter__ st) as [[]?]; cbn [snd] in *; subst.
  - pose proof (len_state st) as Hs.
    by destruct (__len__ st) as [[]?]; cbn [snd] in *; subst.
Qed.

Lemma run_well_formed (ops : list op) (st : FramerState) :
  Forall (λ o, rebinds_storage o = false) ops →
  well_formed st → well_formed (run ops st).
Proof.
  intros Hops. revert st.
  induction Hops as [|o ops Ho _ IH]; intros st Hwf; [done|].
  cbn [run foldl]. apply IH. by apply perform_well_formed.
Qed.

(** ** The reserved namespace *)

(** C1 (as amended): starting from a freshly initialized container,
    after every sequence of public operations none of which is an
    attribute-style write or delete of [_data] or [__dict__], the mapping
    exists and stores no name beginning with ['_'].  In such a state an
    attribute-style write of a reserved name other than [_data],
    [__dict__], [__class__] and [__weakref__] succeeds and changes the
    instance dictionary only: the mapping, the size and the iterated
    names are what they were. *)
Theorem reserved_namespace_invariant (ops : list op) :
  Forall (λ o, rebinds_storage o = false) ops →
  let st := run ops new_FramerState in
  (∃ m, mapping st = Some m ∧ ∀ k, is_Some (m !! k) → reserved k = false)
  ∧ ∀ n v, reserved n = true → n ∉ special_names →
      let st' := Obj (<[n := v]> (attrs st)) in
      __setattr__ n v st = (Ok (), st')
      ∧ mapping st' = mapping st
      ∧ (__len__ st').1 = (__len__ st).1
      ∧ (__iter__ st').1 = (__iter__ st).1.
Proof.
  intros Hops st.
  destruct (run_well_formed ops new_FramerState Hops
              new_FramerState_well_formed) as [_ (m & Hm & Hpub)].
  fold st in Hm. split.
  - exists m. split; [done|]. intros k [x Hx]. by apply (Hpub k x).
  - intros n v Hr Hn st'.
    assert (n ≠ "_data" ∧ n ≠ "__dict__" ∧ n ≠ "__class__" ∧ n ≠ "__weakref__")
      as (H1 & H2 & H3 & H4).
    { unfold special_names in Hn. set_solver. }
    assert (attrs st' !! "_data" = attrs st !! "_data") as Hd.
    { unfold st'. cbn [attrs]. by rewrite lookup_insert_ne. }
    split; [|split; [|split]].
    + rewrite setattr_reserved by done. unfold object_setattr.
      by rewrite !decide_False.
    + unfold mapping. by rewrite Hd.
    + by rewrite !len_result, Hd.
    + by rewrite !iter_result, Hd.
Qed.

(** C3: for every name beginning with ['_'], subscript-style set and
    subscript-style delete fail with [KeyError] on every state, also on
    the state an attribute-style write of that name leaves behind, and
    the state (hence the mapping) is left as it was. *)
Theorem subscript_reserved_always_fails
    (st : FramerState) (n : string) (v w : value) :
  reserved n = true →
  __setitem__ n v st = (Raise (KeyError n), st)
  ∧ __delitem__ n st = (Raise (KeyError n), st)
  ∧ (let st' := (__setattr__ n w st).2 in
     __setitem__ n v st' = (Raise (KeyError n), st')
     ∧ __delitem__ n st' = (Raise (KeyError n), st')).
Proof.
  intros Hr. repeat split;
    by (apply setitem_reserved_raises || apply delitem_reserved_raises).
Qed.

(** C9 (as amended): subscript-style read makes no reserved-prefix
    check: on a state whose mapping is [m] it returns the stored value
    when the name is a key of [m] and fails with the key-missing
    [KeyError] otherwise, reserved or not.  On a container reached from
    a fresh one by operations none of which is an attribute-style write
    or delete of [_data] or [__dict__], the read of a reserved name
    other than [_data] and [__dict__] fails with [KeyError] also right
    after an attribute-style write of that name. *)
Theorem getitem_has_no_reserved_check
    (st : FramerState) (m : gmap string value) (n : string)
    (ops : list op) (v : value) :
  mapping st = Some m →
  __getitem__ n st
  = (match m !! n with Some v => Ok v | None => Raise (KeyError n) end, st)
  ∧ (Forall (λ o, rebinds_storage o = false) ops →
     reserved n = true → n ≠ "_data" → n ≠ "__dict__" →
     let st' := run (ops ++ [SetAttr n v]) new_FramerState in
     __getitem__ n st' = (Raise (KeyError n), st')).
Proof.
  intros Hm. split; [by apply getitem_spec|].
  intros Hops Hr H1 H2 st'.
  assert (Forall (λ o, rebinds_storage o = false) (ops ++ [SetAttr n v]))
    as Hall.
  { apply Forall_app. split; [done|]. apply Forall_singleton.
    cbn [rebinds_storage]. by rewrite !bool_decide_eq_false_2. }
  destruct (run_well_formed _ new_FramerState Hall
              new_FramerState_well_formed) as [_ (m' & Hm' & Hpub)].
  fold st' in Hm'. rewrite (getitem_spec _ m' _ Hm').
  destruct (m' !! n) as [x|] eqn:Hx; [|done].
  specialize (Hpub n x Hx). cbn in Hpub. congruence.
Qed.

(** C10: for the empty name every mutating operation, in either style,
    fails with [IndexError] and leaves the state as it was. *)
Theorem empty_name_raises_IndexError (st : FramerState) (v : value) :
  __setattr__ "" v st = (Raise IndexError, st)
  ∧ __setitem__ "" v st = (Raise IndexError, st)
  ∧ __delattr__ "" st = (Raise IndexError, st)
  ∧ __delitem__ "" st = (Raise IndexError, st).
Proof. done. Qed.

(** C6: the default [initialize_state] returns without raising and
    hands back the very state it was given. *)
Theorem initialize_state_is_noop
    {frame : Type} `{!Framer frame} (st : FramerState) :
  initialize_state st = (Ok (), st).
Proof. done. Qed.

(** ** The two views of the mapping *)

(** C2 (as amended): for every non-empty name [n] that does not begin
    with ['_'] and every value [v], on a state whose [_data] holds the
    mapping: setting [n] to [v] succeeds in the attribute style and in
    the subscript style with the same resulting state; there the
    subscript-style read of [n] returns [v], and so does the
    attribute-style read provided [n] is neither an attribute of the
    class nor a field of the instance dictionary. *)
Theorem set_then_get
    (st : FramerState) (m : gmap string value) (n : string) (v : value) :
  mapping st = Some m → n ≠ "" → reserved n = false →
  let st' := with_mapping (<[n := v]> m) st in
  __setattr__ n v st = (Ok (), st')
  ∧ __setitem__ n v st = (Ok (), st')
  ∧ __getitem__ n st' = (Ok v, st')
  ∧ (class_attr n = None → attrs st !! n = None →
     getattr_ n st' = (Ok v, st')).
Proof.
  intros Hm Hne Hr st'.
  assert (mapping st' = Some (<[n := v]> m)) as Hm'
    by apply mapping_with_mapping.
  split; [by apply setattr_plain|]. split; [by apply setitem_plain|].
  split.
  - by rewrite (getitem_spec _ _ _ Hm'), lookup_insert_eq.
  - intros Hc Hi.
    rewrite getattr_spec by by intros ->.
    unfold class_lookup. rewrite decide_False by by intros ->.
    unfold st', with_mapping. cbn [attrs].
    rewrite lookup_insert_ne by by intros <-.
    rewrite Hi, Hc, lookup_insert_eq. cbn [py_getitem].
    by rewrite lookup_insert_eq.
Qed.

(** Ordinary lookup comes first: where the instance dictionary has no
    field [n] and the class has an attribute [n], the attribute-style
    read never reaches the mapping. *)
Lemma class_attribute_shadows_mapping_at
    (st : FramerState) (m : gmap string value) (n : string) (c v : value) :
  mapping st = Some m → attrs st !! n = None →
  n ≠ "" → reserved n = false → class_attr n = Some c →
  let st' := with_mapping (<[n := v]> m) st in
  __setattr__ n v st = (Ok (), st')
  ∧ __setitem__ n v st = (Ok (), st')
  ∧ mapping st' = Some (<[n := v]> m)
  ∧ getattr_ n st = (Ok c, st)
  ∧ getattr_ n st' = (Ok c, st')
  ∧ __getitem__ n st' = (Ok v, st').
Proof.
  intros Hm Hi Hne Hr Hc st'.
  assert (mapping st' = Some (<[n := v]> m)) as Hm'
    by apply mapping_with_mapping.
  assert (class_lookup n = Some c) as Hl.
  { unfold class_lookup. by rewrite decide_False by by intros ->. }
  split; [by apply setattr_plain|]. split; [by apply setitem_plain|].
  split; [done|]. split; [|split].
  - rewrite getattr_spec by by intros ->. by rewrite Hi, Hl.
  - rewrite getattr_spec by by intros ->.
    unfold st', with_mapping. cbn [attrs].
    rewrite lookup_insert_ne by by intros <-. by rewrite Hi, Hl.
  - by rewrite (getitem_spec _ _ _ Hm'), lookup_insert_eq.
Qed.

(** C8 (as amended): on a container reached from a fresh one by
    operations none of which is an attribute-style write or delete of
    [_data] or [__dict__], for every non-reserved name [n] that is an
    attribute [c] of the class (the inherited mapping methods in
    particular): a set of [n] to [v] succeeds in either style and
    stores [v] in the mapping; the attribute-style read of [n] returns
    the class attribute [c] before the set and after it, and only the
    subscript-style read returns [v]. *)
Theorem class_attribute_shadows_mapping
    (ops : list op) (n : string) (c v : value) :
  Forall (λ o, rebinds_storage o = false) ops →
  n ≠ "" → reserved n = false → class_attr n = Some c →
  let st := run ops new_FramerState in
  ∃ m, mapping st = Some m
    ∧ let st' := with_mapping (<[n := v]> m) st in
      __setattr__ n v st = (Ok (), st')
      ∧ __setitem__ n v st = (Ok (), st')
      ∧ mapping st' = Some (<[n := v]> m)
      ∧ getattr_ n st = (Ok c, st)
      ∧ getattr_ n st' = (Ok c, st')
      ∧ __getitem__ n st' = (Ok v, st').
Proof.
  intros Hops Hne Hr Hc st.
  destruct (run_well_formed ops new_FramerState Hops
              new_FramerState_well_formed) as [Hp (m & Hm & _)].
  fold st in Hp, Hm. exists m. split; [done|].
  apply class_attribute_shadows_mapping_at; try done.
  destruct (attrs st !! n) as [x|] eqn:Hx; [|done].
  specialize (Hp n x Hx). cbn in Hp. congruence.
Qed.

(** C4 (as amended): for every name [n] that does not begin with ['_']
    and is not currently set, on a state whose [_data] holds the
    mapping: the subscript-style read fails with [KeyError]; the
    attribute-style read fails with [AttributeError] provided [n] is
    neither an attribute of the class nor a field of the instance
    dictionary; and, when [n] is not empty, the subscript-style delete
    fails with [KeyError] and the attribute-style delete with
    [AttributeError].  Each failure leaves the state as it was. *)
Theorem unset_name_not_found
    (st : FramerState) (m : gmap string value) (n : string) :
  mapping st = Some m → reserved n = false → m !! n = None →
  __getitem__ n st = (Raise (KeyError n), st)
  ∧ (class_attr n = None → attrs st !! n = None →
     getattr_ n st = (Raise (AttributeError n), st))
  ∧ (n ≠ "" →
     __delitem__ n st = (Raise (KeyError n), st)
     ∧ __delattr__ n st = (Raise (AttributeError n), st)).
Proof.
  intros Hm Hr Hn. split; [|split].
  - by rewrite (getitem_spec _ _ _ Hm), Hn.
  - intros Hc Hi. rewrite getattr_spec by by intros ->.
    unfold class_lookup. rewrite decide_False by by intros ->.
    apply mapping_Some in Hm. rewrite Hi, Hc, Hm. cbn [py_getitem].
    by rewrite Hn.
  - intros Hne. split.
    + by rewrite (delitem_plain _ m), Hn.
    + by rewrite (delattr_plain _ m), Hn.
Qed.

(** ** Size and iteration *)

Lemma exec_app (ops1 ops2 : list op) (st : FramerState) :
  exec (ops1 ++ ops2) st
  = match exec ops1 st with
    | (Ok _, st') => exec ops2 st'
    | (Raise e, st') => (Raise e, st')
    end.
Proof.
  revert st. induction ops1 as [|o ops1 IH]; intros st; [done|].
  cbn [exec app]. unfold mbind, M_bind.
  destruct (perform o st) as [[r|e] st1]; [apply IH|done].
Qed.

Lemma perform_set_op
    (b : bool) (st : FramerState) (m : gmap string value) (n : string) (v : value) :
  mapping st = Some m → n ≠ "" → reserved n = false →
  perform (set_op b n v) st = (Ok RNone, with_mapping (<[n := v]> m) st).
Proof.
  intros Hm Hne Hr. destruct b; cbn [set_op perform]; unfold mbind, M_bind.
  - by rewrite (setattr_plain _ m).
  - by rewrite (setitem_plain _ m).
Qed.

Lemma perform_del_op
    (b : bool) (st : FramerState) (m : gmap string value) (n : string) :
  mapping st = Some m → n ≠ "" → reserved n = false → is_Some (m !! n) →
  perform (del_op b n) st = (Ok RNone, with_mapping (delete n m) st).
Proof.
  intros Hm Hne Hr [w Hw]. destruct b; cbn [del_op perform]; unfold mbind, M_bind.
  - by rewrite (delattr_plain _ m), Hw.
  - by rewrite (delitem_plain _ m), Hw.
Qed.

Lemma exec_sets
    (sets : list (bool * (string * value))) (st : FramerState)
    (m : gmap string value) :
  mapping st = Some m →
  Forall (λ n, n ≠ "" ∧ reserved n = false) sets.*2.*1 →
  ∃ st' m',
    exec (map (λ s, set_op s.1 s.2.1 s.2.2) sets) st = (Ok (), st')
    ∧ mapping st' = Some m'
    ∧ dom m' = dom m ∪ list_to_set sets.*2.*1.
Proof.
  revert st m. induction sets as [|[b [n v]] sets IH]; intros st m Hm Hok.
  - exists st, m. split; [done|]. split; [done|]. set_solver.
  - cbn [fmap list_fmap fst snd] in Hok. apply Forall_cons in Hok as [[Hne Hr] Hok].
    destruct (IH (with_mapping (<[n := v]> m) st) (<[n := v]> m))
      as (st' & m' & He & Hm' & Hdom);
      [apply mapping_with_mapping|done|].
    exists st', m'. split; [|split; [done|]].
    + cbn [map exec fst snd]. unfold mbind, M_bind.
      by rewrite (perform_set_op _ _ m).
    + rewrite Hdom, dom_insert_L. set_solver.
Qed.

Lemma exec_dels
    (dels : list (bool * string)) (st : FramerState) (m : gmap string value) :
  mapping st = Some m →
  Forall (λ n, n ≠ "" ∧ reserved n = false) dels.*2 →
  NoDup dels.*2 → (∀ x, x ∈ dels.*2 → x ∈ dom m) →
  ∃ st' m',
    exec (map (λ d, del_op d.1 d.2) dels) st = (Ok (), st')
    ∧ mapping st' = Some m'
    ∧ dom m' = dom m ∖ list_to_set dels.*2.
Proof.
  revert st m. induction dels as [|[b n] dels IH]; intros st m Hm Hok Hnd Hin.
  - exists st, m. split; [done|]. split; [done|]. set_solver.
  - cbn [fmap list_fmap fst snd] in *.
    apply Forall_cons in Hok as [[Hne Hr] Hok].
    apply NoDup_cons in Hnd as [Hn Hnd].
    destruct (IH (with_mapping (delete n m) st) (delete n m))
      as (st' & m' & He & Hm' & Hdom);
      [apply mapping_with_mapping|done|done| |].
    { intros x Hx. rewrite dom_delete_L.
      apply elem_of_difference. split; [apply Hin; set_solver|set_solver]. }
    exists st', m'. split; [|split; [done|]].
    + cbn [map exec fst snd]. unfold mbind, M_bind.
      rewrite (perform_del_op _ _ m); [done..|].
      apply elem_of_dom, Hin. set_solver.
    + rewrite Hdom, dom_delete_L. set_solver.
Qed.

(** C5 (as amended): for every list of distinct, non-empty names that
    do not begin with ['_'] and every duplicate-free selection of them
    (strict or not): setting the names on a fresh state and then
    deleting the selected ones, each in either style, runs without an
    exception; afterwards the size is the number of names minus the
    number deleted, and the iteration produces, without repetition,
    exactly the names that were not deleted. *)
Theorem size_and_names_after_deletes
    (sets : list (bool * (string * value))) (dels : list (bool * string)) :
  let names := sets.*2.*1 in
  let deleted := dels.*2 in
  NoDup names → Forall (λ n, n ≠ "" ∧ reserved n = false) names →
  NoDup deleted → deleted ⊆ names →
  ∃ st ks,
    exec (map (λ s, set_op s.1 s.2.1 s.2.2) sets
          ++ map (λ d, del_op d.1 d.2) dels) new_FramerState = (Ok (), st)
    ∧ __len__ st = (Ok (length names - length deleted), st)
    ∧ __iter__ st = (Ok ks, st)
    ∧ NoDup ks
    ∧ ∀ x, x ∈ ks ↔ x ∈ names ∧ x ∉ deleted.
Proof.
  intros names deleted Hnd Hok Hndd Hsub.
  destruct (exec_sets sets new_FramerState ∅ new_FramerState_mapping Hok)
    as (st1 & m1 & He1 & Hm1 & Hdom1).
  fold names in Hdom1.
  assert (dom m1 = list_to_set names) as Hd1 by set_solver.
  destruct (exec_dels dels st1 m1 Hm1) as (st2 & m2 & He2 & Hm2 & Hdom2).
  { fold deleted. apply Forall_forall. intros x Hx.
    by apply (proj1 (Forall_forall _ _) Hok), Hsub. }
  { done. }
  { intros x Hx. rewrite Hd1. apply elem_of_list_to_set. by apply Hsub. }
  fold deleted in Hdom2. rewrite Hd1 in Hdom2.
  exists st2, (map_to_list m2).*1.
  split; [by rewrite exec_app, He1|].
  split; [|split; [by apply iter_spec|split]].
  - rewrite (len_spec _ _ Hm2). do 2 f_equal.
    rewrite <- size_dom, Hdom2, size_difference.
    + by rewrite !size_list_to_set.
    + intros x. rewrite !elem_of_list_to_set. apply Hsub.
  - apply NoDup_fst_map_to_list.
  - intros x.
    rewrite <- (elem_of_list_to_set (C := gset string) x names).
    rewrite <- (elem_of_list_to_set (C := gset string) x deleted).
    rewrite <- elem_of_difference, <- Hdom2, elem_of_dom.
    split.
    + intros [[k w] [-> Hkw]]%list_elem_of_fmap.
      exists w. by apply elem_of_map_to_list.
    + intros [w Hw]. apply list_elem_of_fmap. exists (x, w).
      split; [done|]. by apply elem_of_map_to_list.
Qed.

(** ** Further properties of the container *)

(** X1: a read never changes the state, whatever the state and the
    name: attribute-style read, subscript-style read, iteration and
    size hand back the instance they were given. *)
Theorem reads_keep_state (st : FramerState) (n : string) :
  (getattr_ n st).2 = st
  ∧ (__getitem__ n st).2 = st
  ∧ (__iter__ st).2 = st
  ∧ (__len__ st).2 = st.
Proof.
  repeat split;
    [apply getattr_state|apply getitem_state|apply iter_state|apply len_state].
Qed.

Lemma setattr_raise_state (n : string) (v : value) (st : FramerState) (e : exn) :
  (__setattr__ n v st).1 = Raise e → (__setattr__ n v st).2 = st.
Proof.
  run_method. case_decide; [done|]. destruct (reserved n).
  - unfold object_setattr. repeat case_decide; try done. by destruct v.
  - run_method. destruct (attrs st !! "_data") as [d|]; [|done].
    by destruct (py_setitem d n v).
Qed.

Lemma setitem_raise_state (n : string) (v : value) (st : FramerState) (e : exn) :
  (__setitem__ n v st).1 = Raise e → (__setitem__ n v st).2 = st.
Proof.
  run_method. case_decide; [done|]. destruct (reserved n); [done|].
  run_method. destruct (attrs st !! "_data") as [d|]; [|done].
  by destruct (py_setitem d n v).
Qed.

Lemma delattr_raise_state (n : string) (st : FramerState) (e : exn) :
  (__delattr__ n st).1 = Raise e → (__delattr__ n st).2 = st.
Proof.
  run_method. case_decide; [done|]. destruct (reserved n).
  - unfold object_delattr. repeat case_decide; try done.
    by destruct (attrs st !! n).
  - run_method. destruct (attrs st !! "_data") as [d|]; [|done].
    by destruct (py_delitem d n) as [d'|[]].
Qed.

Lemma delitem_raise_state (n : string) (st : FramerState) (e : exn) :
  (__delitem__ n st).1 = Raise e → (__delitem__ n st).2 = st.
Proof.
  run_method. case_decide; [done|]. destruct (reserved n); [done|].
  run_method. destruct (attrs st !! "_data") as [d|]; [|done].
  by destruct (py_delitem d n).
Qed.

(** X2: no operation changes the state and then raises: whenever one
    of the eight operations ends in an exception, on any state, the
    state is exactly what it was before the call. *)
Theorem raise_keeps_state (o : op) (st : FramerState) (e : exn) :
  (perform o st).1 = Raise e → (perform o st).2 = st.
Proof.
  destruct o as [n|n|n v|n v|n|n| |]; cbn [perform]; unfold mbind, M_bind.
  - pose proof (getattr_state recursion_limit n st) as Hs. unfold getattr_.
    by destruct (getattr _ n st) as [[]?].
  - pose proof (getitem_state n st) as Hs.
    by destruct (__getitem__ n st) as [[]?].
  - pose proof (setattr_raise_state n v st) as Hs.
    destruct (__setattr__ n v st) as [[]?]; [done|]. intros _. by eapply Hs.
  - pose proof (setitem_raise_state n v st) as Hs.
    destruct (__setitem__ n v st) as [[]?]; [done|]. intros _. by eapply Hs.
  - pose proof (delattr_raise_state n st) as Hs.
    destruct (__delattr__ n st) as [[]?]; [done|]. intros _. by eapply Hs.
  - pose proof (delitem_raise_state n st) as Hs.
    destruct (__delitem__ n st) as [[]?]; [done|]. intros _. by eapply Hs.
  - pose proof (iter_state st) as Hs.
    by destruct (__iter__ st) as [[]?].
  - pose proof (len_state st) as Hs.
    by destruct (__len__ st) as [[]?].
Qed.

(** X3: for a name that does not begin with ['_'] the two styles are
    one operation.  On every state the attribute-style write and the
    subscript-style write have the same outcome, and the two deletes
    leave the same state and differ only in the exception that reports
    a missing name: [AttributeError] where the subscript style raises
    [KeyError]. *)
Theorem styles_agree_on_public_names
    (st : FramerState) (n : string) (v : value) :
  reserved n = false →
  __setattr__ n v st = __setitem__ n v st
  ∧ (__delattr__ n st).2 = (__delitem__ n st).2
  ∧ (__delattr__ n st).1
    = match (__delitem__ n st).1 with
      | Raise (KeyError _) => Raise (AttributeError n)
      | r => r
      end.
Proof.
  intros Hr. split; [|split]; run_method; rewrite Hr;
    case_decide; try done; run_method;
    destruct (attrs st !! "_data") as [d|]; try done;
    by destruct (py_delitem d n) as [d'|[]].
Qed.

Lemma perform_mapping (o : op) (st : FramerState) (m : gmap string value) :
  rebinds_storage o = false → mapping st = Some m →
  mapping (perform o st).2 = Some (abstract_step m o).
Proof.
  intros Ho Hm.
  destruct o as [n|n|n v|n v|n|n| |];
    cbn [perform rebinds_storage abstract_step] in *; unfold mbind, M_bind.
  - pose proof (getattr_state recursion_limit n st) as Hs. unfold getattr_.
    by destruct (getattr _ n st) as [[]?]; cbn [snd] in *; subst.
  - pose proof (getitem_state n st) as Hs.
    by destruct (__getitem__ n st) as [[]?]; cbn [snd] in *; subst.
  - apply orb_false_iff in Ho as [Hd%bool_decide_eq_false Hdd%bool_decide_eq_false].
    case_decide as Hne; [by subst|].
    destruct (reserved n) eqn:Hr.
    + rewrite setattr_reserved by done. unfold object_setattr.
      rewrite (decide_False (P := n = "__dict__")) by done.
      repeat case_decide; try done.
      change (mapping (Obj (<[n := v]> (attrs st))) = Some m).
      unfold mapping in *. cbn [attrs]. by rewrite lookup_insert_ne.
    + rewrite (setattr_plain _ m) by done. cbn [snd].
      apply mapping_with_mapping.
  - case_decide as Hne; [by subst|].
    destruct (reserved n) eqn:Hr.
    + by rewrite setitem_reserved_raises.
    + rewrite (setitem_plain _ m) by done. cbn [snd].
      apply mapping_with_mapping.
  - apply orb_false_iff in Ho as [Hd%bool_decide_eq_false Hdd%bool_decide_eq_false].
    case_decide as Hne; [by subst|].
    destruct (reserved n) eqn:Hr.
    + rewrite delattr_reserved by done. unfold object_delattr.
      rewrite (decide_False (P := n = "__dict__")) by done.
      repeat case_decide; try done.
      destruct (attrs st !! n); [|done].
      change (mapping (Obj (delete n (attrs st))) = Some m).
      unfold mapping in *. cbn [attrs]. by rewrite lookup_delete_ne.
    + rewrite (delattr_plain _ m) by done.
      destruct (m !! n) eqn:Hn; cbn [snd].
      * apply mapping_with_mapping.
      * by rewrite delete_id.
  - case_decide as Hne; [by subst|].
    destruct (reserved n) eqn:Hr.
    + by rewrite delitem_reserved_raises.
    + rewrite (delitem_plain _ m) by done.
      destruct (m !! n) eqn:Hn; cbn [snd].
      * apply mapping_with_mapping.
      * by rewrite delete_id.
  - pose proof (iter_state st) as Hs.
    by destruct (__iter__ st) as [[]?]; cbn [snd] in *; subst.
  - pose proof (len_state st) as Hs.
    by destruct (__len__ st) as [[]?]; cbn [snd] in *; subst.
Qed.

Lemma run_mapping
    (ops : list op) (st : FramerState) (m : gmap string value) :
  Forall (λ o, rebinds_storage o = false) ops →
  mapping st = Some m →
  mapping (run ops st) = Some (foldl abstract_step m ops).
Proof.
  intros Hops. revert st m.
  induction Hops as [|o ops Ho _ IH]; intros st m Hm; [done|].
  cbn [run foldl]. apply IH. by apply perform_mapping.
Qed.

(** X4: the container is a finite map.  Starting from a fresh
    container, after any sequence of operations that never writes or
    deletes [_data] or [__dict__] in the attribute style, with every
    exception handled by the caller, the mapping is the empty map with
    the successful writes and deletes applied in order: writes of
    non-empty names not beginning with ['_'] insert, deletes of such
    names remove, everything else, failed or not, leaves the mapping
    alone. *)
Theorem run_refines_finite_map (ops : list op) :
  Forall (λ o, rebinds_storage o = false) ops →
  mapping (run ops new_FramerState) = Some (foldl abstract_step ∅ ops).
Proof. intros Hops. by apply run_mapping. Qed.

(** X5: a write touches one name.  On a state whose mapping is [m], a
    write of a non-empty name [n] not beginning with ['_'] leaves the
    subscript-style read of every other name as it was; the size grows
    by one when [n] was not set and stays when it was. *)
Theorem set_touches_one_name
    (st : FramerState) (m : gmap string value) (n : string) (v : value) :
  mapping st = Some m → n ≠ "" → reserved n = false →
  let st' := (__setitem__ n v st).2 in
  (∀ k, k ≠ n → (__getitem__ k st').1 = (__getitem__ k st).1)
  ∧ __len__ st'
    = (Ok (if m !! n is Some _ then size m else S (size m)), st').
Proof.
  intros Hm Hne Hr st'. unfold st'.
  rewrite (setitem_plain _ m) by done. cbn [snd].
  pose proof (mapping_with_mapping (<[n := v]> m) st) as Hm'. split.
  - intros k Hk.
    by rewrite (getitem_spec _ _ _ Hm'), (getitem_spec _ _ _ Hm),
      lookup_insert_ne.
  - rewrite (len_spec _ _ Hm'). do 2 f_equal.
    destruct (m !! n) eqn:Hn.
    + by rewrite <- size_dom, dom_insert_lookup_L, size_dom.
    + by apply map_size_insert_None.
Qed.

(** X6: a delete touches one name.  On a state whose mapping is [m], a
    delete of a name [n] that is set, non-empty and not beginning with
    ['_'] succeeds in both styles with the same state; afterwards [n]
    is unset, the subscript-style read of every other name is as it
    was, and the size has dropped by one. *)
Theorem delete_touches_one_name
    (st : FramerState) (m : gmap string value) (n : string) (w : value) :
  mapping st = Some m → n ≠ "" → reserved n = false → m !! n = Some w →
  ∃ st',
    __delitem__ n st = (Ok (), st')
    ∧ __delattr__ n st = (Ok (), st')
    ∧ __getitem__ n st' = (Raise (KeyError n), st')
    ∧ (∀ k, k ≠ n → (__getitem__ k st').1 = (__getitem__ k st).1)
    ∧ __len__ st' = (Ok (size m - 1), st').
Proof.
  intros Hm Hne Hr Hn. exists (with_mapping (delete n m) st).
  pose proof (mapping_with_mapping (delete n m) st) as Hm'.
  split; [by rewrite (delitem_plain _ m), Hn|].
  split; [by rewrite (delattr_plain _ m), Hn|].
  split; [by rewrite (getitem_spec _ _ _ Hm'), lookup_delete_eq|].
  split.
  - intros k Hk.
    by rewrite (getitem_spec _ _ _ Hm'), (getitem_spec _ _ _ Hm),
      lookup_delete_ne.
  - rewrite (len_spec _ _ Hm'). do 2 f_equal.
    rewrite (map_size_delete_Some n m) by done. lia.
Qed.

Lemma with_mapping_twice (m1 m2 : gmap string value) (st : FramerState) :
  with_mapping m2 (with_mapping m1 st) = with_mapping m2 st.
Proof. unfold with_mapping. cbn [attrs]. by rewrite insert_insert_eq. Qed.

Lemma with_mapping_same (m : gmap string value) (st : FramerState) :
  mapping st = Some m → with_mapping m st = st.
Proof.
  intros H%mapping_Some. destruct st as [a]. unfold with_mapping.
  cbn [attrs] in *. by rewrite insert_id.
Qed.

(** X7: write then delete is a round trip, and the last write wins.
    On a state that has a mapping in which the non-empty name [n], not
    beginning with ['_'], is unset: setting [n] and then deleting it,
    each in either style, gives back the very state one started from;
    and setting [n] twice is the same as the second write alone. *)
Theorem set_delete_round_trip
    (st : FramerState) (m : gmap string value) (n : string) (v w : value)
    (s1 s2 : bool) :
  mapping st = Some m → n ≠ "" → reserved n = false → m !! n = None →
  exec [set_op s1 n v; del_op s2 n] st = (Ok (), st)
  ∧ exec [set_op s1 n v; set_op s2 n w] st = exec [set_op s2 n w] st.
Proof.
  intros Hm Hne Hr Hn.
  pose proof (mapping_with_mapping (<[n := v]> m) st) as Hm'.
  split; cbn [exec]; unfold mbind, M_bind.
  - rewrite (perform_set_op _ _ m) by done.
    rewrite (perform_del_op _ _ (<[n := v]> m))
      by (try done; by rewrite lookup_insert_eq).
    rewrite with_mapping_twice, delete_insert_id by done.
    by rewrite (with_mapping_same _ _ Hm).
  - rewrite !(perform_set_op _ st m) by done.
    rewrite (perform_set_op _ _ (<[n := v]> m)) by done.
    by rewrite with_mapping_twice, insert_insert_eq.
Qed.

(** X8: iteration and size tell the same story as the reads.  On a
    state that has a mapping, iteration succeeds and produces each name
    once, the size is the number of names produced, and a name is
    produced exactly when its subscript-style read succeeds. *)
Theorem iterate_agrees_with_reads (st : FramerState) (m : gmap string value) :
  mapping st = Some m →
  ∃ ks,
    __iter__ st = (Ok ks, st)
    ∧ NoDup ks
    ∧ __len__ st = (Ok (length ks), st)
    ∧ ∀ n, n ∈ ks ↔ ∃ v, __getitem__ n st = (Ok v, st).
Proof.
  intros Hm. exists (map_to_list m).*1.
  split; [by apply iter_spec|].
  split; [apply NoDup_fst_map_to_list|].
  split.
  - rewrite (len_spec _ _ Hm), length_fmap. do 2 f_equal.
    symmetry. apply length_map_to_list.
  - intros n. rewrite (getitem_spec _ _ _ Hm). split.
    + intros [[k v] [-> Hkv%elem_of_map_to_list]]%list_elem_of_fmap.
      exists v. cbn [fst]. by rewrite Hkv.
    + intros [v Hv]. destruct (m !! n) as [v'|] eqn:Hn; [|done].
      apply list_elem_of_fmap. exists (n, v').
      split; [done|]. by apply elem_of_map_to_list.
Qed.

(** ** Private fields and the storage itself *)

(** X9: private fields are ordinary attributes.  On every state, for a
    reserved name [n] other than [__dict__], [__class__] and
    [__weakref__]: the attribute-style write stores [v] in the instance
    dictionary and the attribute-style read then returns [v]; the
    attribute-style delete removes the field again, restoring the
    state when [n] was no field before; and deleting a name that is no
    field fails with [AttributeError], the state untouched. *)
Theorem private_field_round_trip
    (st : FramerState) (n : string) (v : value) :
  reserved n = true →
  n ≠ "__dict__" → n ≠ "__class__" → n ≠ "__weakref__" →
  let st' := Obj (<[n := v]> (attrs st)) in
  __setattr__ n v st = (Ok (), st')
  ∧ getattr_ n st' = (Ok v, st')
  ∧ __delattr__ n st' = (Ok (), Obj (delete n (attrs st)))
  ∧ (attrs st !! n = None →
     __delattr__ n st' = (Ok (), st)
     ∧ __delattr__ n st = (Raise (AttributeError n), st)).
Proof.
  intros Hr H1 H2 H3 st'.
  split; [|split; [|split]].
  - rewrite setattr_reserved by done. unfold object_setattr.
    by rewrite !decide_False.
  - rewrite getattr_spec by done. unfold st'. cbn [attrs].
    by rewrite lookup_insert_eq.
  - rewrite delattr_reserved by done. unfold object_delattr, st'.
    rewrite !decide_False by done. cbn [attrs].
    by rewrite lookup_insert_eq, delete_insert_eq.
  - intros Hn. split.
    + rewrite delattr_reserved by done. unfold object_delattr, st'.
      rewrite !decide_False by done. cbn [attrs].
      rewrite lookup_insert_eq, delete_insert_id by done.
      by destruct st.
    + rewrite delattr_reserved by done. unfold object_delattr.
      by rewrite !decide_False, Hn.
Qed.

(** In the model, where no field shares the dictionary bound to
    [_data], a mapping operation leaves every other field alone. *)
Lemma perform_keeps_fields
    (o : op) (st : FramerState) (k : string) :
  private_write o = false → k ≠ "_data" →
  attrs (perform o st).2 !! k = attrs st !! k.
Proof.
  intros Ho Hk.
  assert (∀ d, attrs (rebind_data d st).2 !! k = attrs st !! k) as Hrb.
  { intros d. unfold rebind_data. cbn [snd attrs]. by rewrite lookup_insert_ne. }
  destruct o as [n|n|n v|n v|n|n| |]; cbn [perform private_write] in *;
    unfold mbind, M_bind.
  - pose proof (getattr_state recursion_limit n st) as Hs. unfold getattr_.
    by destruct (getattr _ n st) as [[]?]; cbn [snd] in *; subst.
  - pose proof (getitem_state n st) as Hs.
    by destruct (__getitem__ n st) as [[]?]; cbn [snd] in *; subst.
  - run_method. rewrite Ho. case_decide; [done|]. run_method.
    destruct (attrs st !! "_data") as [d|]; [|done].
    destruct (py_setitem d n v) as [d'|]; [|done]. apply (Hrb d').
  - run_method. case_decide; [done|]. destruct (reserved n); [done|].
    run_method.
    destruct (attrs st !! "_data") as [d|]; [|done].
    destruct (py_setitem d n v) as [d'|]; [|done]. apply (Hrb d').
  - run_method. rewrite Ho. case_decide; [done|]. run_method.
    destruct (attrs st !! "_data") as [d|]; [|done].
    destruct (py_delitem d n) as [d'|[]]; try done. apply (Hrb d').
  - run_method. case_decide; [done|]. destruct (reserved n); [done|].
    run_method.
    destruct (attrs st !! "_data") as [d|]; [|done].
    destruct (py_delitem d n) as [d'|]; [|done]. apply (Hrb d').
  - pose proof (iter_state st) as Hs.
    by destruct (__iter__ st) as [[]?]; cbn [snd] in *; subst.
  - pose proof (len_state st) as Hs.
    by destruct (__len__ st) as [[]?]; cbn [snd] in *; subst.
Qed.

Lemma private_write_rebinds_storage (o : op) :
  private_write o = false → rebinds_storage o = false.
Proof.
  destruct o as [n|n|n v|n v|n|n| |]; cbn [private_write rebinds_storage];
    try done; intros Hr; apply orb_false_iff;
    split; apply bool_decide_eq_false_2; by intros ->.
Qed.

(** X10: the mapping view adds and removes no private field.  On a
    container reached from a fresh one by operations none of which is
    an attribute-style write or delete of [_data] or [__dict__], every
    operation other than an attribute-style write or delete of a
    reserved name, whether it succeeds or raises, leaves the instance
    dictionary with the same field names, and leaves every field other
    than [_data] whose value is not a dictionary exactly as it was. *)
Theorem mapping_operations_spare_private_fields (ops : list op) (o : op) :
  Forall (λ o, rebinds_storage o = false) ops →
  private_write o = false →
  let st := run ops new_FramerState in
  let st' := (perform o st).2 in
  dom (attrs st') = dom (attrs st)
  ∧ ∀ k, k ≠ "_data" → (∀ d, attrs st !! k ≠ Some (VDict d)) →
         attrs st' !! k = attrs st !! k.
Proof.
  intros Hops Ho st st'.
  destruct (run_well_formed ops new_FramerState Hops
              new_FramerState_well_formed) as [_ (m & Hm & _)].
  fold st in Hm.
  pose proof (perform_mapping o st m (private_write_rebinds_storage o Ho) Hm)
    as Hm'.
  fold st' in Hm'. apply mapping_Some in Hm, Hm'.
  split.
  - apply set_eq. intros k. rewrite !elem_of_dom.
    destruct (decide (k = "_data")) as [->|Hk].
    + by rewrite Hm, Hm'.
    + unfold st'. by rewrite perform_keeps_fields by done.
  - intros k Hk _. by apply perform_keeps_fields.
Qed.

(** X11: a container without [_data] is unusable.  The attribute-style
    delete of [_data] succeeds on a state that has the field; and on
    every state without it, evaluating [self._data] recurses through
    [__getattr__] until the stack is exhausted, so that the subscript
    read, the size, the iteration, and every write or delete of a
    non-empty name not beginning with ['_'] raise [RecursionError] and
    leave the state as it was. *)
Theorem without_data_everything_recurses
    (st : FramerState) (n : string) (v : value) :
  attrs st !! "_data" = None →
  n ≠ "" → reserved n = false →
  (∀ st0 d, attrs st0 !! "_data" = Some d →
     ∃ st1, __delattr__ "_data" st0 = (Ok (), st1)
            ∧ attrs st1 !! "_data" = None)
  ∧ __getitem__ n st = (Raise RecursionError, st)
  ∧ __len__ st = (Raise RecursionError, st)
  ∧ __iter__ st = (Raise RecursionError, st)
  ∧ __setattr__ n v st = (Raise RecursionError, st)
  ∧ __setitem__ n v st = (Raise RecursionError, st)
  ∧ __delattr__ n st = (Raise RecursionError, st)
  ∧ __delitem__ n st = (Raise RecursionError, st).
Proof.
  intros Hd Hne Hr. split.
  - intros st0 d Hd0. exists (Obj (delete "_data" (attrs st0))). split.
    + rewrite delattr_reserved by done. unfold object_delattr.
      by rewrite !decide_False, Hd0.
    + cbn [attrs]. apply lookup_delete_eq.
  - repeat split; run_method;
      rewrite ?decide_False, ?Hr by done; run_method; by rewrite Hd.
Qed.

(** X12: [__init__] empties the container.  Run on any instance it
    succeeds and binds [_data] to a fresh empty dictionary, keeping
    every other field; afterwards the size is [0], the iteration
    produces nothing and every subscript-style read fails with
    [KeyError]. *)
Theorem init_gives_empty_mapping (st : FramerState) (n k : string) :
  let st' := with_mapping ∅ st in
  __init__ st = (Ok (), st')
  ∧ __len__ st' = (Ok 0, st')
  ∧ __iter__ st' = (Ok [], st')
  ∧ __getitem__ n st' = (Raise (KeyError n), st')
  ∧ (k ≠ "_data" → attrs st' !! k = attrs st !! k).
Proof.
  intros st'. unfold st'.
  pose proof (mapping_with_mapping ∅ st) as Hm.
  split; [done|]. split; [by rewrite (len_spec _ _ Hm)|].
  split; [by rewrite (iter_spec _ _ Hm), map_to_list_empty|].
  split; [by rewrite (getitem_spec _ _ _ Hm)|].
  intros Hk. unfold with_mapping. cbn [attrs]. by rewrite lookup_insert_ne.
Qed.

(** X13: the attribute-style read is the subscript-style read for
    every name ordinary lookup does not find.  On every state, for a
    name that is none of [__dict__], [__class__], [__weakref__], no
    field of the instance dictionary and no attribute of the class,
    the two reads have the same result, except that a missing name is
    reported by [AttributeError] in place of [KeyError]. *)
Theorem getattr_falls_back_to_getitem (st : FramerState) (n : string) :
  n ≠ "__dict__" → n ≠ "__class__" → n ≠ "__weakref__" →
  attrs st !! n = None → class_lookup n = None →
  (getattr_ n st).1
  = match (__getitem__ n st).1 with
    | Raise (KeyError _) => Raise (AttributeError n)
    | r => r
    end.
Proof.
  intros H1 H2 H3 Hi Hc. rewrite getattr_spec by done. rewrite Hi, Hc.
  run_method. cbn [fst].
  destruct (attrs st !! "_data") as [d|]; [|done].
  by destruct (py_getitem d n) as [v|[]].
Qed.


Lemma perform_private_only (o : op) (st : FramerState) :
  sets_dict o = false → private_only st → private_only (perform o st).2.
Proof.
  intros Ho Hp.
  assert (∀ d, private_only (rebind_data d st).2) as Hrb.
  { intros d. unfold rebind_data, private_only. cbn [snd attrs].
    by apply map_Forall_insert_2. }
  destruct o as [n|n|n v|n v|n|n| |]; cbn [perform sets_dict] in *;
    unfold mbind, M_bind.
  - pose proof (getattr_state recursion_limit n st) as Hs. unfold getattr_.
    by destruct (getattr _ n st) as [[]?]; cbn [snd] in *; subst.
  - pose proof (getitem_state n st) as Hs.
    by destruct (__getitem__ n st) as [[]?]; cbn [snd] in *; subst.
  - apply bool_decide_eq_false in Ho.
    run_method. case_decide; [done|]. destruct (reserved n) eqn:Hr.
    + unfold object_setattr. rewrite (decide_False (P := n = "__dict__")) by done.
      repeat case_decide; try done.
      unfold private_only. cbn [snd attrs]. by apply map_Forall_insert_2.
    + run_method. destruct (attrs st !! "_data") as [d|]; [|done].
      destruct (py_setitem d n v) as [d'|]; [|done]. apply (Hrb d').
  - run_method. case_decide; [done|]. destruct (reserved n); [done|].
    run_method. destruct (attrs st !! "_data") as [d|]; [|done].
    destruct (py_setitem d n v) as [d'|]; [|done]. apply (Hrb d').
  - run_method. case_decide; [done|]. destruct (reserved n) eqn:Hr.
    + unfold object_delattr. repeat case_decide; try done.
      destruct (attrs st !! n); [|done].
      unfold private_only. cbn [snd attrs]. by apply map_Forall_delete.
    + run_method. destruct (attrs st !! "_data") as [d|]; [|done].
      destruct (py_delitem d n) as [d'|[]]; try done. apply (Hrb d').
  - run_method. case_decide; [done|]. destruct (reserved n); [done|].
    run_method. destruct (attrs st !! "_data") as [d|]; [|done].
    destruct (py_delitem d n) as [d'|]; [|done]. apply (Hrb d').
  - pose proof (iter_state st) as Hs.
    by destruct (__iter__ st) as [[]?]; cbn [snd] in *; subst.
  - pose proof (len_state st) as Hs.
    by destruct (__len__ st) as [[]?]; cbn [snd] in *; subst.
Qed.

Lemma run_private_only (ops : list op) (st : FramerState) :
  Forall (λ o, sets_dict o = false) ops →
  private_only st → private_only (run ops st).
Proof.
  intros Hops. revert st.
  induction Hops as [|o ops Ho _ IH]; intros st Hst; [done|].
  cbn [run foldl]. apply IH. by apply perform_private_only.
Qed.

(** X15: framing state never becomes an instance attribute.  Starting
    from a fresh container, after any sequence of operations that
    assigns neither [_data] nor [__dict__] in the attribute style,
    every field of the instance dictionary has a name beginning with
    ['_']. *)
Theorem instance_dict_holds_reserved_names_only (ops : list op) (k : string) :
  Forall (λ o, assigns_storage o = false) ops →
  is_Some (attrs (run ops new_FramerState) !! k) → reserved k = true.
Proof.
  intros Hops [x Hx].
  assert (Forall (λ o, sets_dict o = false) ops) as Hd.
  { eapply Forall_impl; [exact Hops|]. intros [n|n|n v|n v|n|n| |]; try done.
    cbn [assigns_storage sets_dict]. by intros [_ ?]%orb_false_iff. }
  by apply (run_private_only ops new_FramerState Hd
              (proj1 new_FramerState_well_formed) k x).
Qed.

End FramerState.

(** ** Reading requirements *)

Section RequirementsFacts.

Variable ws : ascii → bool.

Lemma lstrip_head (s : string) :
  lstrip ws s = "" ∨ ∃ c s', lstrip ws s = String c s' ∧ ws c = false.
Proof.
  induction s as [|c s IH]; [by left|]. cbn [lstrip].
  destruct (ws c) eqn:Hc; [done|]. right. by exists c, s.
Qed.

Lemma lstrip_fixed (c : ascii) (s : string) :
  ws c = false → lstrip ws (String c s) = String c s.
Proof. intros Hc. cbn [lstrip]. by rewrite Hc. Qed.

Lemma rstrip_keeps_head (c : ascii) (s : string) :
  ws c = false → ∃ r, rstrip ws (String c s) = String c r.
Proof.
  intros Hc. cbn [rstrip]. destruct (rstrip ws s) as [|d r].
  - rewrite Hc. by exists "".
  - by exists (String d r).
Qed.

Lemma rstrip_idem (s : string) : rstrip ws (rstrip ws s) = rstrip ws s.
Proof.
  induction s as [|c s IH]; [done|]. cbn [rstrip].
  destruct (rstrip ws s) as [|d r] eqn:Hr.
  - destruct (ws c) eqn:Hc; [done|]. cbn [rstrip]. by rewrite Hc.
  - change (rstrip ws (String c (String d r)))
      with (match rstrip ws (String d r) with
            | EmptyString => if ws c then EmptyString else String c EmptyString
            | r' => String c r'
            end).
    by rewrite IH.
Qed.

Lemma rstrip_prefix (s : string) : ∃ rest, s = rstrip ws s +:+ rest.
Proof.
  induction s as [|c s [rest IH]]; [by exists ""|]. cbn [rstrip].
  destruct (rstrip ws s) as [|d r].
  - destruct (ws c).
    + by exists (String c s).
    + exists rest. cbn. by rewrite IH at 1.
  - exists rest. cbn. by rewrite IH at 1.
Qed.

Lemma partition_head_prefix (s : string) : ∃ rest, s = partition_head s +:+ rest.
Proof.
  induction s as [|c s [rest IH]]; [by exists ""|]. cbn [partition_head].
  case_bool_decide.
  - by exists (String c s).
  - exists rest. cbn. by rewrite IH at 1.
Qed.

Lemma partition_head_no_hash (s : string) :
  "#"%char ∉ String.list_ascii_of_string (partition_head s).
Proof.
  induction s as [|c s IH]; cbn [partition_head String.list_ascii_of_string].
  - apply not_elem_of_nil.
  - case_bool_decide; cbn [String.list_ascii_of_string]; [apply not_elem_of_nil|].
    apply not_elem_of_cons. by split.
Qed.

Lemma partition_head_fixed (s : string) :
  "#"%char ∉ String.list_ascii_of_string s → partition_head s = s.
Proof.
  induction s as [|c s IH]; [done|]. cbn [partition_head String.list_ascii_of_string].
  intros [Hc Hs]%not_elem_of_cons.
  rewrite bool_decide_eq_false_2 by done. by rewrite IH.
Qed.

Lemma app_chars (a b : string) (c : ascii) :
  c ∈ String.list_ascii_of_string a → c ∈ String.list_ascii_of_string (a +:+ b).
Proof.
  induction a as [|d a IH]; cbn [String.list_ascii_of_string String.append].
  - by intros ?%elem_of_nil.
  - intros [->|H]%elem_of_cons; [left|right; by apply IH].
Qed.

Lemma lstrip_chars (s : string) (c : ascii) :
  c ∈ String.list_ascii_of_string (lstrip ws s) → c ∈ String.list_ascii_of_string s.
Proof.
  induction s as [|d s IH]; [done|]. cbn [lstrip].
  destruct (ws d); [|done]. intros H. right. by apply IH.
Qed.

Lemma rstrip_chars (s : string) (c : ascii) :
  c ∈ String.list_ascii_of_string (rstrip ws s) → c ∈ String.list_ascii_of_string s.
Proof.
  intros H. destruct (rstrip_prefix s) as [rest Hs]. rewrite Hs.
  by apply app_chars.
Qed.

Lemma prefix_app (p a b : string) :
  String.prefix p a = true → String.prefix p (a +:+ b) = true.
Proof.
  revert a. induction p as [|c p IH]; intros a.
  - intros _. by destruct (a +:+ b).
  - destruct a as [|d a]; [done|].
    simpl. destruct (Ascii.ascii_dec c d); [|done]. apply IH.
Qed.

Lemma editable_app (a b : string) :
  editable a = true → editable (a +:+ b) = true.
Proof.
  unfold editable. intros [H|H]%orb_true_iff; apply orb_true_iff;
    [left|right]; by apply prefix_app.
Qed.

(** A string is in normal form when reading it as a line gives it
    back. *)
Lemma strip_spec (s : string) :
  strip ws (strip ws s) = strip ws s
  ∧ lstrip ws (strip ws s) = strip ws s
  ∧ ∃ rest, lstrip ws s = strip ws s +:+ rest.
Proof.
  unfold strip. destruct (lstrip_head s) as [->|(c & s' & -> & Hc)].
  { repeat split; try done. by exists "". }
  destruct (rstrip_keeps_head c s' Hc) as [r Hr].
  assert (lstrip ws (rstrip ws (String c s')) = rstrip ws (String c s')) as Hl
    by (rewrite Hr; by apply lstrip_fixed).
  split; [by rewrite Hl, rstrip_idem|]. split; [done|].
  apply rstrip_prefix.
Qed.

Lemma filter_nonempty_cons (x : string) (l : list string) :
  filter (λ r, r ≠ "") (x :: l)
  = if decide (x = "") then filter (λ r, r ≠ "") l
    else x :: filter (λ r, r ≠ "") l.
Proof.
  rewrite filter_cons.
  destruct (decide (x = "")); [by rewrite decide_False by naive_solver|].
  by rewrite decide_True.
Qed.

(** The loop, read as a comprehension. *)
Lemma readreq_foldl (acc lines : list string) :
  foldl (λ (result : list string) line,
           let req := requirement_of ws line in
           if decide (req = "") then result else (result ++ [req])%list)
        acc lines
  = (acc ++ filter (λ r, r ≠ "") (requirement_of ws <$> lines))%list.
Proof.
  revert acc. induction lines as [|line lines IH]; intros acc.
  - cbn. by rewrite app_nil_r.
  - cbn [foldl fmap list_fmap]. rewrite IH, filter_nonempty_cons.
    case_decide; [done|]. by rewrite <- app_assoc.
Qed.

Lemma readreq_filter (lines : list string) :
  readreq ws lines = filter (λ r, r ≠ "") (requirement_of ws <$> lines).
Proof. unfold readreq. by rewrite readreq_foldl. Qed.

(** X16: [readreq] never yields an empty requirement, and yields at
    most one requirement per line. *)
Theorem readreq_entries_nonempty (lines : list string) :
  Forall (λ r, r ≠ "") (readreq ws lines)
  ∧ (length (readreq ws lines) ≤ length lines)%nat.
Proof.
  rewrite readreq_filter. split.
  - apply Forall_forall. by intros r [Hr _]%list_elem_of_filter.
  - etrans; [apply length_filter|]. by rewrite length_fmap.
Qed.

(** X17: [readreq] works line by line: the requirements of two files
    read one after the other are those of the first followed by those of
    the second. *)
Theorem readreq_app (lines1 lines2 : list string) :
  readreq ws (lines1 ++ lines2)%list
  = (readreq ws lines1 ++ readreq ws lines2)%list.
Proof. by rewrite !readreq_filter, fmap_app, filter_app. Qed.

(** X18: what a requirement looks like.  Every requirement [readreq]
    yields either contains no ['#'] and has no whitespace at either
    end, or is an editable line (one starting with ["-e "] or
    ["http:"]) without ["#egg="], kept as read but for its leading
    whitespace. *)
Theorem readreq_entry_shape (lines : list string) (r : string) :
  r ∈ readreq ws lines →
  (("#"%char ∉ String.list_ascii_of_string r) ∧ strip ws r = r)
  ∨ (∃ line, line ∈ lines ∧ r = lstrip ws line ∧ editable r = true
             ∧ (find "#egg=" r < 0)%Z).
Proof.
  rewrite readreq_filter.
  intros [Hne (line & -> & Hline)%list_elem_of_fmap]%list_elem_of_filter.
  unfold requirement_of. cbn zeta.
  destruct (editable (lstrip ws line)) eqn:He.
  - destruct (Z.leb_spec 0 (find "#egg=" (lstrip ws line))) as [Hi|Hi].
    + left. split; [|apply strip_spec].
      intros H. unfold strip in H.
      by apply rstrip_chars, lstrip_chars, partition_head_no_hash in H.
    + right. by exists line.
  - left. split; [|apply strip_spec].
    intros H. unfold strip in H.
    by apply rstrip_chars, lstrip_chars, partition_head_no_hash in H.
Qed.

Lemma requirement_of_skipped (line : string) :
  lstrip ws line = "" ∨ String.prefix "#" (lstrip ws line) = true →
  requirement_of ws line = "".
Proof.
  unfold requirement_of. cbn zeta. intros [->|H]; [done|].
  destruct (lstrip ws line) as [|c s]; [done|].
  cbn [String.prefix] in H. destruct (Ascii.ascii_dec "#" c) as [<-|]; [|done].
  done.
Qed.

(** X19: blank lines and comment lines count for nothing.  A line
    that, leading whitespace apart, is empty or starts with ['#'] can be
    dropped from the file, wherever it stands, without changing what
    [readreq] returns. *)
Theorem readreq_skips_blank_and_comment_lines
    (lines1 lines2 : list string) (line : string) :
  lstrip ws line = "" ∨ String.prefix "#" (lstrip ws line) = true →
  readreq ws (lines1 ++ line :: lines2)%list
  = readreq ws (lines1 ++ lines2)%list.
Proof.
  intros H. rewrite !readreq_filter, !fmap_app, !filter_app.
  cbn [fmap list_fmap]. rewrite filter_nonempty_cons.
  by rewrite (requirement_of_skipped line H).
Qed.

Lemma requirement_of_plain_fixed (line : string) :
  editable (lstrip ws line) = false →
  let r := requirement_of ws line in
  requirement_of ws r = r ∧ editable (lstrip ws r) = false.
Proof.
  intros He. unfold requirement_of at 1. cbn zeta. rewrite He.
  set (u := partition_head (lstrip ws line)).
  destruct (strip_spec u) as (Hs & Hl & rest & Hrest).
  assert (editable (strip ws u) = false) as Hed.
  { destruct (editable (strip ws u)) eqn:H; [|done].
    destruct (partition_head_prefix (lstrip ws line)) as [rest' Hu].
    fold u in Hu.
    assert (lstrip ws u = u) as Hlu.
    { unfold u. destruct (lstrip_head line) as [->|(c & s' & -> & Hc)]; [done|].
      cbn [partition_head]. case_bool_decide; [done|]. by apply lstrip_fixed. }
    rewrite Hlu in Hrest.
    apply (editable_app _ rest) in H. rewrite <- Hrest in H.
    apply (editable_app _ rest') in H. rewrite <- Hu in H. congruence. }
  split; [|by rewrite Hl].
  unfold requirement_of. cbn zeta. rewrite Hl, Hed.
  rewrite partition_head_fixed; [done|].
  intros H. unfold strip in H.
  by apply rstrip_chars, lstrip_chars, partition_head_no_hash in H.
Qed.

(** X20: reading is idempotent on files without editable lines.  When
    no line starts, leading whitespace apart, with ["-e "] or
    ["http:"], the requirements [readreq] returns, read again as the
    lines of a file, come back unchanged. *)
Theorem readreq_idempotent_on_plain_lines (lines : list string) :
  Forall (λ line, editable (lstrip ws line) = false) lines →
  readreq ws (readreq ws lines) = readreq ws lines.
Proof.
  intros Hp. rewrite (readreq_filter (readreq ws lines)).
  rewrite (readreq_filter lines).
  induction Hp as [|line lines Hl _ IH]; [done|].
  cbn [fmap list_fmap]. rewrite filter_nonempty_cons.
  destruct (requirement_of_plain_fixed line Hl) as [Hfix _].
  case_decide as Hne; [done|].
  cbn [fmap list_fmap]. rewrite filter_nonempty_cons, Hfix.
  rewrite decide_False by done. by rewrite IH.
Qed.

End RequirementsFacts.

(** ** The operations on concrete states

    The closed statements below run the methods with [MM], the class
    table of the inherited mapping methods. *)

(** Scenario: a counter set to [0] and incremented three times reads
    [3] in both styles, and the size is [1]. *)
Example counter_scenario :
  let incr st :=
    match getattr_ MM "count" st with
    | (Ok (VInt c), st1) => (__setattr__ MM "count" (VInt (c + 1)) st1).2
    | (_, st1) => st1
    end in
  let st := incr (incr (incr (run MM [SetItem "count" (VInt 0)]
                                (new_FramerState MM)))) in
  getattr_ MM "count" st = (Ok (VInt 3), st)
  ∧ __getitem__ MM "count" st = (Ok (VInt 3), st)
  ∧ __len__ MM st = (Ok 1, st).
Proof. vm_compute. done. Qed.

(** Scenario: [state._internal = 'x'] leaves the size [0] and the
    iteration empty, while the instance dictionary holds ['x']. *)
Example internal_field_scenario :
  let st := run MM [SetAttr "_internal" (VStr "x")] (new_FramerState MM) in
  __len__ MM st = (Ok 0, st)
  ∧ __iter__ MM st = (Ok [], st)
  ∧ attrs st !! "_internal" = Some (VStr "x").
Proof. vm_compute. done. Qed.

(** When [_data] has been deleted, evaluating [self._data] recurses
    through [__getattr__] until the stack is exhausted. *)
Example deleted_data_scenario :
  let st := run MM [DelAttr "_data"] (new_FramerState MM) in
  attrs st = ∅
  ∧ __len__ MM st = (Raise RecursionError, st)
  ∧ getattr_ MM "x" st = (Raise RecursionError, st).
Proof. vm_compute. done. Qed.

(** Every inherited mapping method keeps shadowing the value stored
    under its name. *)
Example mixins_shadow_mapping :
  Forall (λ n,
    let st := (__setattr__ MM n (VInt 1) (new_FramerState MM)).2 in
    getattr_ MM n st = (Ok (VOpaque ("bound method " +:+ n)), st)
    ∧ __getitem__ MM n st = (Ok (VInt 1), st))
    MutableMapping_mixins.
Proof. repeat constructor. Qed.

(** The unit tests of the container that go through its methods. *)
Example test_setattr_internal :
  let st := run MM [SetAttr "_attr" (VStr "value")] (new_FramerState MM) in
  mapping st = Some ∅ ∧ attrs st !! "_attr" = Some (VStr "value").
Proof. vm_compute. done. Qed.

Example test_setattr_normal :
  let st := run MM [SetAttr "attr" (VStr "value")] (new_FramerState MM) in
  mapping st = Some {[ "attr" := VStr "value" ]} ∧ attrs st !! "attr" = None.
Proof. vm_compute. done. Qed.

Example test_setitem_internal :
  let st := new_FramerState MM in
  __setitem__ MM "_attr" (VStr "value") st = (Raise (KeyError "_attr"), st)
  ∧ attrs st !! "_attr" = None ∧ mapping st = Some ∅.
Proof. vm_compute. done. Qed.

Example test_delattr_internal :
  let st := run MM [SetAttr "_attr" (VStr "value"); DelAttr "_attr"]
              (new_FramerState MM) in
  attrs st !! "_attr" = None ∧ st = new_FramerState MM.
Proof. vm_compute. done. Qed.

Example test_delattr_missing :
  let st := new_FramerState MM in
  __delattr__ MM "attr" st = (Raise (AttributeError "attr"), st).
Proof. vm_compute. done. Qed.

Example test_delitem_internal :
  let st := with_mapping {[ "_attr" := VStr "value" ]} (new_FramerState MM) in
  __delitem__ MM "_attr" st = (Raise (KeyError "_attr"), st).
Proof. vm_compute. done. Qed.

(** A name deleted once is unset: deleting it again fails in both
    styles, and so do the reads. *)
Example delete_twice :
  let st := run MM [SetItem "a" (VInt 1); DelAttr "a"] (new_FramerState MM) in
  st = new_FramerState MM
  ∧ __delitem__ MM "a" st = (Raise (KeyError "a"), st)
  ∧ __delattr__ MM "a" st = (Raise (AttributeError "a"), st)
  ∧ __getitem__ MM "a" st = (Raise (KeyError "a"), st)
  ∧ getattr_ MM "a" st = (Raise (AttributeError "a"), st).
Proof. vm_compute. done. Qed.

(** ** Where the statements of the specification fail *)

(** C1 fails as stated: the attribute-style write [state._data =
    {'_x': 1}] on a fresh state succeeds and rebinds the mapping itself;
    afterwards the reserved name [_x] is a key of the exposed mapping,
    the size has gone from [0] to [1] and the iteration produces
    [_x]. *)
Lemma setattr_data_rebinds_mapping :
  let st0 := new_FramerState MM in
  let st1 := Obj {[ "_data" := VDict {[ "_x" := VInt 1 ]} ]} in
  reserved "_data" = true
  ∧ __setattr__ MM "_data" (VDict {[ "_x" := VInt 1 ]}) st0 = (Ok (), st1)
  ∧ reserved "_x" = true
  ∧ mapping st1 = Some {[ "_x" := VInt 1 ]}
  ∧ __getitem__ MM "_x" st1 = (Ok (VInt 1), st1)
  ∧ __len__ MM st0 = (Ok 0, st0)
  ∧ __len__ MM st1 = (Ok 1, st1)
  ∧ __iter__ MM st0 = (Ok [], st0)
  ∧ __iter__ MM st1 = (Ok ["_x"], st1)
  ∧ (__len__ MM st1).1 ≠ (__len__ MM st0).1
  ∧ (__iter__ MM st1).1 ≠ (__iter__ MM st0).1.
Proof. vm_compute. done. Qed.

(** C2 fails as stated: [get] does not begin with ['_'], and after
    [state.get = 1] the subscript-style read returns [1] while the
    attribute-style read returns the inherited bound method; for the
    empty name, which does not begin with ['_'] either, the set itself
    raises [IndexError] in both styles. *)
Lemma set_then_getattr_of_get :
  let st0 := new_FramerState MM in
  let st1 := with_mapping {[ "get" := VInt 1 ]} st0 in
  reserved "get" = false
  ∧ __setattr__ MM "get" (VInt 1) st0 = (Ok (), st1)
  ∧ __setitem__ MM "get" (VInt 1) st0 = (Ok (), st1)
  ∧ __getitem__ MM "get" st1 = (Ok (VInt 1), st1)
  ∧ getattr_ MM "get" st1 = (Ok (VOpaque "bound method get"), st1)
  ∧ getattr_ MM "get" st1 ≠ (Ok (VInt 1), st1)
  ∧ reserved "" = false
  ∧ __setattr__ MM "" (VInt 1) st0 = (Raise IndexError, st0)
  ∧ __setitem__ MM "" (VInt 1) st0 = (Raise IndexError, st0).
Proof. vm_compute. done. Qed.

(** C4 fails as stated: on a fresh state neither [keys] nor the empty
    name is set and neither begins with ['_'], yet the attribute-style
    read of [keys] succeeds with the inherited bound method, and the
    deletes of the empty name fail with [IndexError], not with
    [AttributeError] or [KeyError]. *)
Lemma unset_names_without_not_found :
  let st0 := new_FramerState MM in
  mapping st0 = Some ∅
  ∧ reserved "keys" = false
  ∧ getattr_ MM "keys" st0 = (Ok (VOpaque "bound method keys"), st0)
  ∧ getattr_ MM "keys" st0 ≠ (Raise (AttributeError "keys"), st0)
  ∧ reserved "" = false
  ∧ __delattr__ MM "" st0 = (Raise IndexError, st0)
  ∧ __delitem__ MM "" st0 = (Raise IndexError, st0)
  ∧ __delattr__ MM "" st0 ≠ (Raise (AttributeError ""), st0)
  ∧ __delitem__ MM "" st0 ≠ (Raise (KeyError ""), st0).
Proof. vm_compute. done. Qed.

(** C5 fails as stated: with the single name [""], which does not
    begin with ['_'], and nothing deleted, the set raises [IndexError]
    in either style and the size is [0], not [1]; the iteration
    produces nothing. *)
Lemma size_after_setting_empty_name :
  let st0 := new_FramerState MM in
  reserved "" = false
  ∧ exec MM [set_op true "" (VInt 1)] st0 = (Raise IndexError, st0)
  ∧ exec MM [set_op false "" (VInt 1)] st0 = (Raise IndexError, st0)
  ∧ __len__ MM (run MM [set_op false "" (VInt 1)] st0) = (Ok 0, st0)
  ∧ (__len__ MM (run MM [set_op false "" (VInt 1)] st0)).1 ≠ Ok 1
  ∧ __iter__ MM (run MM [set_op false "" (VInt 1)] st0) = (Ok [], st0).
Proof. vm_compute. done. Qed.

(** C8 fails as stated: after [state.__dict__ = {'_data': {}, 'get': 5}]
    the instance dictionary has a field [get]; [get] does not begin
    with ['_'] and is an attribute of the class, yet after the
    successful [state['get'] = 1] the attribute-style read returns the
    instance field [5], not the inherited bound method. *)
Lemma instance_field_shadows_class_attribute :
  let st0 := run MM [SetAttr "__dict__"
                       (VDict {[ "_data" := VDict ∅; "get" := VInt 5 ]})]
               (new_FramerState MM) in
  let st1 := with_mapping {[ "get" := VInt 1 ]} st0 in
  reserved "get" = false
  ∧ MM "get" = Some (VOpaque "bound method get")
  ∧ attrs st0 = {[ "_data" := VDict ∅; "get" := VInt 5 ]}
  ∧ __setitem__ MM "get" (VInt 1) st0 = (Ok (), st1)
  ∧ __getitem__ MM "get" st1 = (Ok (VInt 1), st1)
  ∧ getattr_ MM "get" st1 = (Ok (VInt 5), st1)
  ∧ getattr_ MM "get" st1 ≠ (Ok (VOpaque "bound method get"), st1).
Proof. vm_compute. done. Qed.

(** C9 fails as stated: after the attribute-style write [state._data =
    {'_data': 1}] of the reserved name [_data], the subscript-style read
    [state['_data']] succeeds and returns [1]. *)
Lemma getitem_data_after_setattr_data :
  let st0 := new_FramerState MM in
  let st1 := Obj {[ "_data" := VDict {[ "_data" := VInt 1 ]} ]} in
  reserved "_data" = true
  ∧ __setattr__ MM "_data" (VDict {[ "_data" := VInt 1 ]}) st0 = (Ok (), st1)
  ∧ attrs st1 !! "_data" = Some (VDict {[ "_data" := VInt 1 ]})
  ∧ __getitem__ MM "_data" st1 = (Ok (VInt 1), st1)
  ∧ __getitem__ MM "_data" st1 ≠ (Raise (KeyError "_data"), st1).
Proof. vm_compute. done. Qed.

(** ** The theorems at concrete inputs *)

Lemma reserved_namespace_invariant_witness :
  let ops := [SetAttr "_internal" (VStr "x"); SetItem "count" (VInt 0);
              SetItem "_hidden" VNone; GetAttr "count"; DelAttr "_internal";
              SetAttr "__class__" VNone; SetAttr "count" (VInt 1); Len] in
  Forall (λ o, rebinds_storage o = false) ops
  ∧ let st := run MM ops (new_FramerState MM) in
    (∃ m, mapping st = Some m ∧ ∀ k, is_Some (m !! k) → reserved k = false)
    ∧ ∀ n v, reserved n = true → n ∉ special_names →
        let st' := Obj (<[n := v]> (attrs st)) in
        __setattr__ MM n v st = (Ok (), st')
        ∧ mapping st' = mapping st
        ∧ (__len__ MM st').1 = (__len__ MM st).1
        ∧ (__iter__ MM st').1 = (__iter__ MM st).1.
Proof.
  intros ops.
  assert (Forall (λ o, rebinds_storage o = false) ops) as Hops
    by (repeat constructor).
  split; [exact Hops|].
  exact (reserved_namespace_invariant MM ops Hops).
Defined.

Lemma subscript_reserved_always_fails_witness :
  let st := new_FramerState MM in
  reserved "_attr" = true
  ∧ __setitem__ MM "_attr" (VStr "value") st = (Raise (KeyError "_attr"), st)
  ∧ __delitem__ MM "_attr" st = (Raise (KeyError "_attr"), st)
  ∧ (let st' := (__setattr__ MM "_attr" (VInt 7) st).2 in
     __setitem__ MM "_attr" (VStr "value") st' = (Raise (KeyError "_attr"), st')
     ∧ __delitem__ MM "_attr" st' = (Raise (KeyError "_attr"), st')).
Proof.
  split; [reflexivity|].
  apply (subscript_reserved_always_fails MM (new_FramerState MM) "_attr"
           (VStr "value") (VInt 7)).
  reflexivity.
Defined.

Lemma getitem_has_no_reserved_check_witness :
  let st := new_FramerState MM in
  let ops := [SetItem "count" (VInt 0); SetAttr "_seen" VNone] in
  mapping st = Some ∅
  ∧ Forall (λ o, rebinds_storage o = false) ops
  ∧ reserved "_attr" = true ∧ "_attr" ≠ "_data" ∧ "_attr" ≠ "__dict__"
  ∧ __getitem__ MM "_attr" st = (Raise (KeyError "_attr"), st)
  ∧ let st' := run MM (ops ++ [SetAttr "_attr" (VInt 7)])
                 (new_FramerState MM) in
    __getitem__ MM "_attr" st' = (Raise (KeyError "_attr"), st').
Proof.
  intros st ops.
  assert (Forall (λ o, rebinds_storage o = false) ops) as Hops
    by (repeat constructor).
  split; [reflexivity|]. split; [exact Hops|]. split; [reflexivity|].
  split; [discriminate|]. split; [discriminate|].
  destruct (getitem_has_no_reserved_check MM st ∅ "_attr" ops (VInt 7))
    as [Hg Hs]; [reflexivity|].
  split; [exact Hg|].
  apply Hs; [exact Hops|reflexivity|discriminate|discriminate].
Defined.

Lemma set_then_get_witness :
  let st := new_FramerState MM in
  let st' := with_mapping {[ "offset" := VInt 4 ]} st in
  mapping st = Some ∅ ∧ "offset" ≠ "" ∧ reserved "offset" = false
  ∧ MM "offset" = None ∧ attrs st !! "offset" = None
  ∧ __setattr__ MM "offset" (VInt 4) st = (Ok (), st')
  ∧ __setitem__ MM "offset" (VInt 4) st = (Ok (), st')
  ∧ __getitem__ MM "offset" st' = (Ok (VInt 4), st')
  ∧ getattr_ MM "offset" st' = (Ok (VInt 4), st').
Proof.
  intros st st'.
  split; [reflexivity|]. split; [discriminate|]. split; [reflexivity|].
  split; [reflexivity|]. split; [reflexivity|].
  destruct (set_then_get MM st ∅ "offset" (VInt 4))
    as (H1 & H2 & H3 & H4); [reflexivity|discriminate|reflexivity|].
  split; [exact H1|]. split; [exact H2|]. split; [exact H3|].
  apply H4; reflexivity.
Defined.

Lemma class_attribute_shadows_mapping_witness :
  let ops := [SetItem "count" (VInt 0); SetAttr "_seen" VNone;
              DelItem "get"] in
  Forall (λ o, rebinds_storage o = false) ops
  ∧ "get" ≠ "" ∧ reserved "get" = false
  ∧ MM "get" = Some (VOpaque "bound method get")
  ∧ let st := run MM ops (new_FramerState MM) in
    ∃ m, mapping st = Some m
      ∧ let st' := with_mapping (<["get" := VInt 1]> m) st in
        __setattr__ MM "get" (VInt 1) st = (Ok (), st')
        ∧ __setitem__ MM "get" (VInt 1) st = (Ok (), st')
        ∧ mapping st' = Some (<["get" := VInt 1]> m)
        ∧ getattr_ MM "get" st = (Ok (VOpaque "bound method get"), st)
        ∧ getattr_ MM "get" st' = (Ok (VOpaque "bound method get"), st')
        ∧ __getitem__ MM "get" st' = (Ok (VInt 1), st').
Proof.
  intros ops.
  assert (Forall (λ o, rebinds_storage o = false) ops) as Hops
    by (repeat constructor).
  split; [exact Hops|]. split; [discriminate|]. split; [reflexivity|].
  split; [reflexivity|].
  apply (class_attribute_shadows_mapping MM ops "get"
           (VOpaque "bound method get") (VInt 1));
    [exact Hops|discriminate|reflexivity|reflexivity].
Defined.

Lemma unset_name_not_found_witness :
  let st := new_FramerState MM in
  mapping st = Some ∅ ∧ reserved "other" = false
  ∧ (∅ : gmap string value) !! "other" = None
  ∧ MM "other" = None ∧ attrs st !! "other" = None ∧ "other" ≠ ""
  ∧ __getitem__ MM "other" st = (Raise (KeyError "other"), st)
  ∧ getattr_ MM "other" st = (Raise (AttributeError "other"), st)
  ∧ __delitem__ MM "other" st = (Raise (KeyError "other"), st)
  ∧ __delattr__ MM "other" st = (Raise (AttributeError "other"), st).
Proof.
  intros st.
  split; [reflexivity|]. split; [reflexivity|]. split; [reflexivity|].
  split; [reflexivity|]. split; [reflexivity|]. split; [discriminate|].
  destruct (unset_name_not_found MM st ∅ "other")
    as (H1 & H2 & H3); [reflexivity|reflexivity|reflexivity|].
  split; [exact H1|]. split; [apply H2; reflexivity|].
  apply H3. discriminate.
Defined.

Lemma size_and_names_after_deletes_witness :
  let sets := [(true, ("a", VInt 1)); (false, ("b", VInt 2));
               (true, ("get", VInt 3)); (false, ("d", VInt 4))] in
  let dels := [(false, "get"); (true, "a")] in
  NoDup sets.*2.*1
  ∧ Forall (λ n, n ≠ "" ∧ reserved n = false) sets.*2.*1
  ∧ NoDup dels.*2 ∧ dels.*2 ⊆ sets.*2.*1
  ∧ ∃ st ks,
      exec MM (map (λ s, set_op s.1 s.2.1 s.2.2) sets
              ++ map (λ d, del_op d.1 d.2) dels) (new_FramerState MM)
      = (Ok (), st)
      ∧ __len__ MM st = (Ok (length sets.*2.*1 - length dels.*2), st)
      ∧ __iter__ MM st = (Ok ks, st)
      ∧ NoDup ks
      ∧ ∀ x, x ∈ ks ↔ x ∈ sets.*2.*1 ∧ x ∉ dels.*2.
Proof.
  intros sets dels.
  assert (NoDup sets.*2.*1) as H1 by compute_done.
  assert (Forall (λ n, n ≠ "" ∧ reserved n = false) sets.*2.*1) as H2
    by (repeat constructor; discriminate).
  assert (NoDup dels.*2) as H3 by compute_done.
  assert (dels.*2 ⊆ sets.*2.*1) as H4 by compute_done.
  split; [exact H1|]. split; [exact H2|]. split; [exact H3|].
  split; [exact H4|].
  exact (size_and_names_after_deletes MM sets dels H1 H2 H3 H4).
Defined.

(** ** The further properties at concrete inputs *)

Lemma raise_keeps_state_witness :
  let st := run MM [SetAttr "offset" (VInt 4)] (new_FramerState MM) in
  (perform MM (DelItem "length") st).1 = Raise (KeyError "length")
  ∧ (perform MM (DelItem "length") st).2 = st.
Proof.
  intros st.
  assert ((perform MM (DelItem "length") st).1 = Raise (KeyError "length"))
    as H by reflexivity.
  split; [exact H|].
  exact (raise_keeps_state MM (DelItem "length") st (KeyError "length") H).
Defined.

Lemma styles_agree_on_public_names_witness :
  let st := run MM [SetAttr "offset" (VInt 4)] (new_FramerState MM) in
  reserved "offset" = false
  ∧ __setattr__ MM "offset" (VInt 5) st = __setitem__ MM "offset" (VInt 5) st
  ∧ (__delattr__ MM "offset" st).2 = (__delitem__ MM "offset" st).2
  ∧ (__delattr__ MM "offset" st).1
    = match (__delitem__ MM "offset" st).1 with
      | Raise (KeyError _) => Raise (AttributeError "offset")
      | r => r
      end.
Proof.
  intros st. split; [reflexivity|].
  apply (styles_agree_on_public_names MM st "offset" (VInt 5)). reflexivity.
Defined.

Lemma run_refines_finite_map_witness :
  let ops := [SetAttr "a" (VInt 1); SetItem "_b" (VInt 2); DelItem "zz";
              SetItem "c" (VInt 3); SetAttr "_p" VNone; DelAttr "a";
              SetItem "" VNone; GetAttr "c"; Len] in
  Forall (λ o, rebinds_storage o = false) ops
  ∧ mapping (run MM ops (new_FramerState MM))
    = Some (foldl abstract_step ∅ ops).
Proof.
  intros ops.
  assert (Forall (λ o, rebinds_storage o = false) ops) as H
    by (repeat constructor).
  split; [exact H|].
  exact (run_refines_finite_map MM ops H).
Defined.

Lemma set_touches_one_name_witness :
  let st := run MM [SetItem "a" (VInt 1)] (new_FramerState MM) in
  let m : gmap string value := {[ "a" := VInt 1 ]} in
  mapping st = Some m ∧ "b" ≠ "" ∧ reserved "b" = false
  ∧ let st' := (__setitem__ MM "b" (VInt 2) st).2 in
    (∀ k, k ≠ "b" → (__getitem__ MM k st').1 = (__getitem__ MM k st).1)
    ∧ __len__ MM st'
      = (Ok (if m !! "b" is Some _ then size m else S (size m)), st').
Proof.
  intros st m. split; [reflexivity|]. split; [discriminate|].
  split; [reflexivity|].
  apply (set_touches_one_name MM st m "b" (VInt 2));
    [reflexivity|discriminate|reflexivity].
Defined.

Lemma delete_touches_one_name_witness :
  let st := run MM [SetItem "a" (VInt 1); SetItem "b" (VInt 2)]
              (new_FramerState MM) in
  let m : gmap string value := {[ "a" := VInt 1; "b" := VInt 2 ]} in
  mapping st = Some m ∧ "a" ≠ "" ∧ reserved "a" = false
  ∧ m !! "a" = Some (VInt 1)
  ∧ ∃ st',
      __delitem__ MM "a" st = (Ok (), st')
      ∧ __delattr__ MM "a" st = (Ok (), st')
      ∧ __getitem__ MM "a" st' = (Raise (KeyError "a"), st')
      ∧ (∀ k, k ≠ "a" → (__getitem__ MM k st').1 = (__getitem__ MM k st).1)
      ∧ __len__ MM st' = (Ok (size m - 1), st').
Proof.
  intros st m. split; [reflexivity|]. split; [discriminate|].
  split; [reflexivity|]. split; [reflexivity|].
  apply (delete_touches_one_name MM st m "a" (VInt 1));
    [reflexivity|discriminate|reflexivity|reflexivity].
Defined.

Lemma set_delete_round_trip_witness :
  let st := run MM [SetItem "a" (VInt 1); SetAttr "_p" VNone]
              (new_FramerState MM) in
  let m : gmap string value := {[ "a" := VInt 1 ]} in
  mapping st = Some m ∧ "b" ≠ "" ∧ reserved "b" = false ∧ m !! "b" = None
  ∧ exec MM [set_op true "b" (VInt 2); del_op false "b"] st = (Ok (), st)
  ∧ exec MM [set_op true "b" (VInt 2); set_op false "b" (VInt 3)] st
    = exec MM [set_op false "b" (VInt 3)] st.
Proof.
  intros st m. split; [reflexivity|]. split; [discriminate|].
  split; [reflexivity|]. split; [reflexivity|].
  apply (set_delete_round_trip MM st m "b" (VInt 2) (VInt 3) true false);
    [reflexivity|discriminate|reflexivity|reflexivity].
Defined.

Lemma iterate_agrees_with_reads_witness :
  let st := run MM [SetItem "a" (VInt 1); SetItem "b" (VInt 2)]
              (new_FramerState MM) in
  mapping st = Some {[ "a" := VInt 1; "b" := VInt 2 ]}
  ∧ ∃ ks,
      __iter__ MM st = (Ok ks, st)
      ∧ NoDup ks
      ∧ __len__ MM st = (Ok (length ks), st)
      ∧ ∀ n, n ∈ ks ↔ ∃ v, __getitem__ MM n st = (Ok v, st).
Proof.
  intros st. split; [reflexivity|].
  apply (iterate_agrees_with_reads MM st {[ "a" := VInt 1; "b" := VInt 2 ]}).
  reflexivity.
Defined.

Lemma private_field_round_trip_witness :
  let st := new_FramerState MM in
  let st' := Obj (<["_partial" := VStr "ab"]> (attrs st)) in
  reserved "_partial" = true
  ∧ "_partial" ≠ "__dict__" ∧ "_partial" ≠ "__class__"
  ∧ "_partial" ≠ "__weakref__" ∧ attrs st !! "_partial" = None
  ∧ __setattr__ MM "_partial" (VStr "ab") st = (Ok (), st')
  ∧ getattr_ MM "_partial" st' = (Ok (VStr "ab"), st')
  ∧ __delattr__ MM "_partial" st' = (Ok (), st)
  ∧ __delattr__ MM "_partial" st = (Raise (AttributeError "_partial"), st).
Proof.
  intros st st'. split; [reflexivity|]. split; [discriminate|].
  split; [discriminate|]. split; [discriminate|]. split; [reflexivity|].
  destruct (private_field_round_trip MM st "_partial" (VStr "ab"))
    as (H1 & H2 & _ & H4); [reflexivity|discriminate..|].
  split; [exact H1|]. split; [exact H2|]. apply H4. reflexivity.
Defined.

Lemma mapping_operations_spare_private_fields_witness :
  let ops := [SetAttr "_partial" (VStr "ab"); SetItem "a" (VInt 1)] in
  let o := SetAttr "partial" VNone in
  Forall (λ o, rebinds_storage o = false) ops
  ∧ private_write o = false
  ∧ let st := run MM ops (new_FramerState MM) in
    let st' := (perform MM o st).2 in
    dom (attrs st') = dom (attrs st)
    ∧ ∀ k, k ≠ "_data" → (∀ d, attrs st !! k ≠ Some (VDict d)) →
           attrs st' !! k = attrs st !! k.
Proof.
  intros ops o.
  assert (Forall (λ o, rebinds_storage o = false) ops) as Hops
    by (repeat constructor).
  split; [exact Hops|]. split; [reflexivity|].
  exact (mapping_operations_spare_private_fields MM ops o Hops eq_refl).
Defined.

Lemma without_data_everything_recurses_witness :
  let st := run MM [DelAttr "_data"] (new_FramerState MM) in
  attrs st !! "_data" = None ∧ "a" ≠ "" ∧ reserved "a" = false
  ∧ __getitem__ MM "a" st = (Raise RecursionError, st)
  ∧ __len__ MM st = (Raise RecursionError, st)
  ∧ __iter__ MM st = (Raise RecursionError, st)
  ∧ __setattr__ MM "a" VNone st = (Raise RecursionError, st)
  ∧ __setitem__ MM "a" VNone st = (Raise RecursionError, st)
  ∧ __delattr__ MM "a" st = (Raise RecursionError, st)
  ∧ __delitem__ MM "a" st = (Raise RecursionError, st).
Proof.
  intros st. split; [reflexivity|]. split; [discriminate|].
  split; [reflexivity|].
  apply (without_data_everything_recurses MM st "a" VNone);
    [reflexivity|discriminate|reflexivity].
Defined.

Lemma getattr_falls_back_to_getitem_witness :
  let st := run MM [SetItem "a" (VInt 1)] (new_FramerState MM) in
  "a" ≠ "__dict__" ∧ "a" ≠ "__class__" ∧ "a" ≠ "__weakref__"
  ∧ attrs st !! "a" = None ∧ class_lookup MM "a" = None
  ∧ (getattr_ MM "a" st).1
    = match (__getitem__ MM "a" st).1 with
      | Raise (KeyError _) => Raise (AttributeError "a")
      | r => r
      end.
Proof.
  intros st. split; [discriminate|]. split; [discriminate|].
  split; [discriminate|]. split; [reflexivity|]. split; [reflexivity|].
  apply (getattr_falls_back_to_getitem MM st "a");
    [discriminate..|reflexivity|reflexivity].
Defined.

Lemma instance_dict_holds_reserved_names_only_witness :
  let ops := [SetAttr "a" (VInt 1); SetAttr "_p" VNone;
              DelAttr "b"; SetItem "b" VNone] in
  Forall (λ o, assigns_storage o = false) ops
  ∧ is_Some (attrs (run MM ops (new_FramerState MM)) !! "_p")
  ∧ reserved "_p" = true.
Proof.
  intros ops.
  assert (Forall (λ o, assigns_storage o = false) ops) as H
    by (repeat constructor).
  assert (is_Some (attrs (run MM ops (new_FramerState MM)) !! "_p")) as Hp
    by (exists VNone; reflexivity).
  split; [exact H|]. split; [exact Hp|].
  exact (instance_dict_holds_reserved_names_only MM ops "_p" H Hp).
Defined.

Lemma readreq_entry_shape_witness :
  let lines := ["six>=1.5  # compat" +:+ String "010" "";
                "-e ./local" +:+ String "010" ""] in
  "six>=1.5" ∈ readreq ascii_whitespace lines
  ∧ ((("#"%char ∉ String.list_ascii_of_string "six>=1.5")
      ∧ strip ascii_whitespace "six>=1.5" = "six>=1.5")
     ∨ (∃ line, line ∈ lines ∧ "six>=1.5" = lstrip ascii_whitespace line
                ∧ editable "six>=1.5" = true
                ∧ (find "#egg=" "six>=1.5" < 0)%Z)).
Proof.
  intros lines.
  assert ("six>=1.5" ∈ readreq ascii_whitespace lines) as H
    by (vm_compute; left).
  split; [exact H|].
  exact (readreq_entry_shape ascii_whitespace lines "six>=1.5" H).
Defined.

Lemma readreq_skips_blank_and_comment_lines_witness :
  let line := "   # testing only" +:+ String "010" "" in
  (lstrip ascii_whitespace line = ""
   ∨ String.prefix "#" (lstrip ascii_whitespace line) = true)
  ∧ readreq ascii_whitespace (["six"] ++ line :: ["mock"])%list
    = readreq ascii_whitespace (["six"] ++ ["mock"])%list.
Proof.
  intros line.
  assert (lstrip ascii_whitespace line = ""
          ∨ String.prefix "#" (lstrip ascii_whitespace line) = true) as H
    by (right; reflexivity).
  split; [exact H|].
  exact (readreq_skips_blank_and_comment_lines ascii_whitespace
           ["six"] ["mock"] line H).
Defined.

Lemma readreq_idempotent_on_plain_lines_witness :
  let lines := ["  six>=1.5  # compat" +:+ String "010" "";
                String "010" ""; "mock"] in
  Forall (λ line, editable (lstrip ascii_whitespace line) = false) lines
  ∧ readreq ascii_whitespace (readreq ascii_whitespace lines)
    = readreq ascii_whitespace lines.
Proof.
  intros lines.
  assert (Forall (λ line, editable (lstrip ascii_whitespace line) = false)
            lines) as H by (repeat constructor).
  split; [exact H|].
  exact (readreq_idempotent_on_plain_lines ascii_whitespace lines H).
Defined.

(** A requirements file with every kind of line. *)
Example readreq_sample :
  readreq ascii_whitespace
    ["six" +:+ String "010" "";
     "  # comment" +:+ String "010" "";
     String "010" "";
     "mock>=1.0  # for tests" +:+ String "010" "";
     "-e git+https://x/y.git#egg=pkg # c" +:+ String "010" "";
     "-e ./local" +:+ String "010" "";
     "http://a/b#egg= z "]
  = ["six"; "mock>=1.0"; "pkg"; "-e ./local" +:+ String "010" ""; "z"].
Proof. reflexivity. Qed.
